(** * complaint_borough.py: counts of 311 complaints per (type, borough)

    A shallow embedding of [src/complaint_borough.py] and the properties of
    its date parser, row filter, result formatter and command-line driver.

    Python strings are modelled as Rocq strings whose characters are the
    code points below 256; Python integers as [Z]. *)

From Stdlib Require Import ZArith Lia Ascii String List Permutation.
From stdpp Require Import base list strings gmap pretty sorting.

Open Scope Z_scope.

(** ** Exceptions and results *)

Inductive exn_class :=
| ValueError | TypeError | AttributeError | FileNotFoundError | OtherException.

(** [Exc c msg] is an instance of the class [c] (all of them subclasses of
    [Exception]) whose [str] is [msg]; [SystemExit] is what [sys.exit]
    raises, and is not a subclass of [Exception]. *)
Inductive exn :=
| Exc (c : exn_class) (msg : string)
| SystemExit (code : Z).

Inductive result (A : Type) :=
| Ret (a : A)
| Raise (e : exn).
Arguments Ret {A} a.
Arguments Raise {A} e.

(** The error monad, with stdpp's [x ← m; k] notation. *)
Global Instance result_ret : MRet result := λ A a, Ret a.
Global Instance result_bind : MBind result := λ A B k m,
  match m with
  | Ret a => k a
  | Raise e => Raise e
  end.

Global Instance exn_class_eq_dec : EqDecision exn_class.
Proof. solve_decision. Defined.

(** ** Python string helpers *)

Module PyStr.

(** [str.isspace] on the code points below 256; the same set is the
    regular-expression class [\s] on [str] patterns. *)
Definition is_space (c : ascii) : bool :=
  let n := N_of_ascii c in
  ((9 <=? n) && (n <=? 13) || (28 <=? n) && (n <=? 32)
   || (n =? 133) || (n =? 160))%N.

Definition is_digit (c : ascii) : bool :=
  let n := N_of_ascii c in ((48 <=? n) && (n <=? 57))%N.

Definition in_range (lo hi : ascii) (c : ascii) : bool :=
  ((N_of_ascii lo <=? N_of_ascii c) && (N_of_ascii c <=? N_of_ascii hi))%N.

(** Lower-casing of the letters [A]..[Z]. *)
Definition lower_char (c : ascii) : ascii :=
  if in_range "A" "Z" c then ascii_of_N (N_of_ascii c + 32) else c.

Fixpoint lower (s : string) : string :=
  match s with
  | EmptyString => EmptyString
  | String c s' => String (lower_char c) (lower s')
  end.

Fixpoint lstrip (s : string) : string :=
  match s with
  | EmptyString => EmptyString
  | String c s' => if is_space c then lstrip s' else s
  end.

Fixpoint rstrip (s : string) : string :=
  match s with
  | EmptyString => EmptyString
  | String c s' =>
      match rstrip s' with
      | EmptyString => if is_space c then EmptyString else String c EmptyString
      | r => String c r
      end
  end.

(** [s.strip()] *)
Definition strip (s : string) : string := rstrip (lstrip s).

(** [sep.join(l)] *)
Fixpoint join (sep : string) (l : list string) : string :=
  match l with
  | [] => ""
  | [x] => x
  | x :: l' => x +:+ sep +:+ join sep l'
  end.

(** [int(s)] for an optionally blank-padded run of decimal digits. *)
Fixpoint digits_value (acc : Z) (s : string) : option Z :=
  match s with
  | EmptyString => Some acc
  | String c s' =>
      if is_digit c
      then digits_value (10 * acc + Z.of_N (N_of_ascii c - 48)) s'
      else None
  end.

Definition int (s : string) : result Z :=
  match strip s with
  | EmptyString => Raise (Exc ValueError "invalid literal for int()")
  | t => match digits_value 0 t with
         | Some z => Ret z
         | None => Raise (Exc ValueError "invalid literal for int()")
         end
  end.

End PyStr.

(** ** A backtracking matcher for the regular expressions of [_strptime] *)

Module Regex.

Inductive regex :=
| Eps
| Chr (c : ascii)                (* a literal, compared under IGNORECASE *)
| Class (p : ascii → bool)       (* one character of a class *)
| Cat (r1 r2 : regex)
| Or (r1 r2 : regex)
| Plus (p : ascii → bool)        (* greedy [p+] *)
| Group (name : string) (r : regex).

(** A match: the text consumed, the named groups, the text left. *)
Definition found : Type := string * list (string * string) * string.

(** All non-empty runs of [p] at the head of [s], longest first. *)
Fixpoint plus_matches (p : ascii → bool) (s : string) : list (string * string) :=
  match s with
  | EmptyString => []
  | String c s' =>
      if p c
      then map (fun mr => (String c (fst mr), snd mr)) (plus_matches p s')
           ++ [(String c "", s')]
      else []
  end.

(** The matches of [r] at the head of [s], in the order in which a
    backtracking matcher tries them. *)
Fixpoint matches (r : regex) (s : string) : list found :=
  match r with
  | Eps => [("", [], s)]
  | Chr c =>
      match s with
      | String a s' =>
          if Ascii.eqb (PyStr.lower_char a) (PyStr.lower_char c)
          then [(String a "", [], s')] else []
      | EmptyString => []
      end
  | Class p =>
      match s with
      | String a s' => if p a then [(String a "", [], s')] else []
      | EmptyString => []
      end
  | Cat r1 r2 =>
      flat_map (fun f1 : found =>
        let '(m1, g1, s1) := f1 in
        map (fun f2 : found =>
               let '(m2, g2, s2) := f2 in (m1 +:+ m2, g1 ++ g2, s2))
            (matches r2 s1))
        (matches r1 s)
  | Or r1 r2 => matches r1 s ++ matches r2 s
  | Plus p => map (fun mr => (fst mr, [], snd mr)) (plus_matches p s)
  | Group name r =>
      map (fun f : found => let '(m, g, rest) := f in (m, (name, m) :: g, rest))
          (matches r s)
  end.

(** [pattern.match(s)]: the first match, if any. *)
Definition re_match (r : regex) (s : string) : option found :=
  head (matches r s).

Fixpoint group_get (g : list (string * string)) (name : string) : option string :=
  match g with
  | [] => None
  | (n, v) :: g' => if decide (n = name) then Some v else group_get g' name
  end.

End Regex.

(** ** [datetime] *)

Record datetime := mk_datetime {
  year : Z; month : Z; day : Z;
  hour : Z; minute : Z; second : Z; microsecond : Z
}.

Module Datetime.

(** [datetime._is_leap] *)
Definition is_leap (y : Z) : bool :=
  (y mod 4 =? 0) && (negb (y mod 100 =? 0) || (y mod 400 =? 0)).

(** [datetime._days_in_month] *)
Definition days_in_month (y m : Z) : Z :=
  if (m =? 2) && is_leap y then 29
  else nth (Z.to_nat m) [0; 31; 28; 31; 30; 31; 30; 31; 31; 30; 31; 30; 31] 0.

(** The checks of [date(y, m, d)]. *)
Definition valid_date (y m d : Z) : bool :=
  (1 <=? y) && (y <=? 9999) && (1 <=? m) && (m <=? 12)
  && (1 <=? d) && (d <=? days_in_month y m).

(** The checks of [time(h, mi, s, us)]. *)
Definition valid_time (h mi s us : Z) : bool :=
  (0 <=? h) && (h <=? 23) && (0 <=? mi) && (mi <=? 59)
  && (0 <=? s) && (s <=? 59) && (0 <=? us) && (us <=? 999999).

(** The constructor [datetime(y, m, d, h, mi, s, us)]. *)
Definition new (y m d h mi s us : Z) : result datetime :=
  if valid_date y m d && valid_time h mi s us
  then Ret (mk_datetime y m d h mi s us)
  else Raise (Exc ValueError "value is out of range").

(** [dt.replace(hour=h, minute=mi, second=s)] *)
Definition replace_hms (dt : datetime) (h mi s : Z) : result datetime :=
  new (year dt) (month dt) (day dt) h mi s (microsecond dt).

Definition lex (c1 c2 : comparison) : comparison :=
  match c1 with Eq => c2 | _ => c1 end.

(** Naive datetimes compare as the tuples of their fields. *)
Definition compare (a b : datetime) : comparison :=
  lex (year a ?= year b) (lex (month a ?= month b) (lex (day a ?= day b)
    (lex (hour a ?= hour b) (lex (minute a ?= minute b)
      (lex (second a ?= second b) (microsecond a ?= microsecond b)))))).

(** [a < b] and [a > b] *)
Definition lt (a b : datetime) : bool :=
  match compare a b with Lt => true | _ => false end.
Definition gt (a b : datetime) : bool :=
  match compare a b with Gt => true | _ => false end.

End Datetime.

(** ** [datetime.strptime], after the library's [_strptime.py] (C locale) *)

Module Strptime.
Import Regex.

Definition chr_in (lo hi : ascii) : regex := Class (PyStr.in_range lo hi).
Definition lit (c : ascii) : regex := Class (Ascii.eqb c).
Definition digit : regex := Class PyStr.is_digit.

(** The entries of [TimeRE] for the directives this program uses. *)
Definition directive (d : ascii) : option regex :=
  if Ascii.eqb d "d" then
    (* 3[0-1]|[1-2]\d|0[1-9]|[1-9]| [1-9] *)
    Some (Group "d"
      (Or (Cat (lit "3") (chr_in "0" "1"))
      (Or (Cat (chr_in "1" "2") digit)
      (Or (Cat (lit "0") (chr_in "1" "9"))
      (Or (chr_in "1" "9")
          (Cat (lit " ") (chr_in "1" "9")))))))
  else if Ascii.eqb d "m" then
    (* 1[0-2]|0[1-9]|[1-9] *)
    Some (Group "m"
      (Or (Cat (lit "1") (chr_in "0" "2"))
      (Or (Cat (lit "0") (chr_in "1" "9"))
          (chr_in "1" "9"))))
  else if Ascii.eqb d "I" then
    (* 1[0-2]|0[1-9]|[1-9] *)
    Some (Group "I"
      (Or (Cat (lit "1") (chr_in "0" "2"))
      (Or (Cat (lit "0") (chr_in "1" "9"))
          (chr_in "1" "9"))))
  else if Ascii.eqb d "M" then
    (* [0-5]\d|\d *)
    Some (Group "M" (Or (Cat (chr_in "0" "5") digit) digit))
  else if Ascii.eqb d "S" then
    (* 6[0-1]|[0-5]\d|\d *)
    Some (Group "S"
      (Or (Cat (lit "6") (chr_in "0" "1"))
      (Or (Cat (chr_in "0" "5") digit)
          digit)))
  else if Ascii.eqb d "Y" then
    (* \d\d\d\d *)
    Some (Group "Y" (Cat digit (Cat digit (Cat digit digit))))
  else if Ascii.eqb d "p" then
    (* am|pm *)
    Some (Group "p" (Or (Cat (Chr "a") (Chr "m")) (Cat (Chr "p") (Chr "m"))))
  else None.

(** [TimeRE.pattern]: a run of blanks in the format becomes [\s+], a
    directive its regular expression, any other character itself.
    [None] stands for the library's "bad directive" error. *)
Fixpoint pattern (in_blank : bool) (format : string) : option regex :=
  match format with
  | EmptyString => Some Eps
  | String c rest =>
      if PyStr.is_space c then
        if in_blank then pattern true rest
        else r ← pattern true rest; Some (Cat (Plus PyStr.is_space) r)
      else if Ascii.eqb c "%" then
        match rest with
        | String d rest' =>
            g ← directive d; r ← pattern false rest'; Some (Cat g r)
        | EmptyString => None
        end
      else r ← pattern false rest; Some (Cat (Chr c) r)
  end.

Definition no_match : exn := Exc ValueError "time data does not match format".

(** The integer value of a group, or [dflt] when the format has no such
    directive. *)
Definition group_int (g : list (string * string)) (name : string) (dflt : Z)
  : result Z :=
  match group_get g name with
  | Some v => PyStr.int v
  | None => Ret dflt
  end.

(** The hour of [%I], corrected by the [%p] group. *)
Definition hour_of (g : list (string * string)) : result Z :=
  match group_get g "I" with
  | None => Ret 0
  | Some v =>
      h ← PyStr.int v;
      let ampm := PyStr.lower (default "" (group_get g "p")) in
      if decide (ampm = "" ∨ ampm = "am") then
        Ret (if h =? 12 then 0 else h)
      else if decide (ampm = "pm") then
        Ret (if negb (h =? 12) then h + 12 else h)
      else Ret h
  end.

(** [datetime.strptime(data_string, format)] for a [str] argument. The
    formats of this program always carry [%Y], so the default year 1900
    is never used. *)
Definition strptime (data_string format : string) : result datetime :=
  match pattern false format with
  | None => Raise (Exc ValueError "bad directive in format")
  | Some format_regex =>
      match re_match format_regex data_string with
      | None => Raise no_match
      | Some (_, g, rest) =>
          if negb (String.eqb rest "")
          then Raise (Exc ValueError "unconverted data remains")
          else
            y ← group_int g "Y" 1900;
            m ← group_int g "m" 1;
            d ← group_int g "d" 1;
            h ← hour_of g;
            mi ← group_int g "M" 0;
            s ← group_int g "S" 0;
            Datetime.new y m d h mi s 0
      end
  end.

End Strptime.

(** ** Values handed to the program by [csv.DictReader] *)

Inductive pyval :=
| PyNone
| PyStr (s : string).

(** [datetime.strptime(v, format)] on a value: a non-string argument is
    rejected with [TypeError] before any parsing. *)
Definition datetime_strptime (v : pyval) (format : string) : result datetime :=
  match v with
  | PyStr s => Strptime.strptime s format
  | PyNone => Raise (Exc TypeError "strptime() argument 1 must be str, not None")
  end.

(** [v.strip()] *)
Definition py_strip (v : pyval) : result string :=
  match v with
  | PyStr s => Ret (PyStr.strip s)
  | PyNone => Raise (Exc AttributeError "'NoneType' object has no attribute 'strip'")
  end.

(** ** [csv.DictReader] *)

(** A row as the reader yields it: a dict from column names to values. The
    entry that collects surplus fields sits under the key [None] and is
    never found by a lookup with a column name, so it is left out. *)
Abbreviation pyrow := (gmap string pyval).

Module Csv.

(** [dict(zip(fieldnames, row))]: a later duplicate name wins. *)
Definition dict_zip (fieldnames row : list string) : pyrow :=
  fold_left (fun d kv => <[kv.1 := PyStr kv.2]> d) (zip fieldnames row) ∅.

(** One step of [DictReader.__next__]: the names of a short row's
    missing fields are bound to [restval], which is [None]. *)
Definition make_row (fieldnames row : list string) : pyrow :=
  let d := dict_zip fieldnames row in
  let lf := length fieldnames in
  let lr := length row in
  if (lf <? lr)%nat then d
  else fold_left (fun d key => <[key := PyNone]> d) (drop lr fieldnames) d.

Definition nonblank (row : list string) : bool :=
  match row with [] => false | _ => true end.

(** The rows of [csv.DictReader(f)] for the records [csv.reader] finds in
    the file: the first record names the columns, blank records are
    skipped. *)
Definition DictReader (records : list (list string)) : list pyrow :=
  match records with
  | [] => []
  | fieldnames :: rest => map (make_row fieldnames) (List.filter nonblank rest)
  end.

End Csv.

(** [row.get(key, default)] *)
Definition row_get (row : pyrow) (key : string) (dflt : pyval) : pyval :=
  match row !! key with
  | Some v => v
  | None => dflt
  end.

(** ** The count table: a [defaultdict(int)] in insertion order *)

Definition key : Type := string * string.
Definition dict : Type := list (key * Z).

Fixpoint dict_lookup (d : dict) (k : key) : option Z :=
  match d with
  | [] => None
  | (k', v) :: d' => if decide (k' = k) then Some v else dict_lookup d' k
  end.

(** [d[k] = v]: an existing entry keeps its place, a new one goes last. *)
Fixpoint dict_setitem (d : dict) (k : key) (v : Z) : dict :=
  match d with
  | [] => [(k, v)]
  | (k', v') :: d' =>
      if decide (k' = k) then (k, v) :: d' else (k', v') :: dict_setitem d' k v
  end.

(** [d[k]] on a [defaultdict(int)]: a missing key is first bound to
    [int()], which is 0. *)
Definition defaultdict_getitem (d : dict) (k : key) : Z * dict :=
  match dict_lookup d k with
  | Some v => (v, d)
  | None => (0, dict_setitem d k 0)
  end.

(** The statement [d[k] += 1]. *)
Definition increment (d : dict) (k : key) : dict :=
  let '(v, d') := defaultdict_getitem d k in
  dict_setitem d' k (v + 1).

(** ** The program *)

(** [parse_date] *)
Definition parse_date (date_str : pyval) : result (option datetime) :=
  match datetime_strptime date_str "%m/%d/%Y %I:%M:%S %p" with
  | Ret dt => Ret (Some dt)
  | Raise (Exc ValueError _) | Raise (Exc AttributeError _) => Ret None
  | Raise e => Raise e
  end.

(** The body of the [for row in reader] loop of [filter_complaints]:
    [None] when it ends in [continue], the key to increment otherwise. *)
Definition loop_body (start_date end_date : datetime) (row : pyrow)
  : result (option key) :=
  let created_date_str := row_get row "Created Date" (PyStr "") in
  created_date ← parse_date created_date_str;
  match created_date with
  | None => Ret None
  | Some created_date =>
      if Datetime.lt created_date start_date || Datetime.gt created_date end_date
      then Ret None
      else
        complaint_type ← py_strip (row_get row "Complaint Type" (PyStr ""));
        borough ← py_strip (row_get row "Borough" (PyStr ""));
        if String.eqb complaint_type "" || String.eqb borough ""
        then Ret None
        else Ret (Some (complaint_type, borough))
  end.

(** The loop itself, from the table [complaint_counts]. *)
Fixpoint for_rows (start_date end_date : datetime) (rows : list pyrow)
    (complaint_counts : dict) : result dict :=
  match rows with
  | [] => Ret complaint_counts
  | row :: rest =>
      step ← loop_body start_date end_date row;
      for_rows start_date end_date rest
        (match step with
         | Some k => increment complaint_counts k
         | None => complaint_counts
         end)
  end.

(** ** The outside world *)

(** What [open(path, 'r')] and the reading that follows find. *)
Inductive file_state :=
| Missing                          (* [FileNotFoundError] *)
| Unreadable (msg : string)        (* any other failure to open, [str(e) = msg] *)
| Content (records : list (list string)) (failure : option string).
    (* the records [csv.reader] yields, then possibly a read error *)

Record env := mk_env {
  files : string → file_state;
  (** [Some msg]: [open(path, 'w')] fails with an exception whose [str] is [msg] *)
  write_error : string → option string;
  (** [Some msg]: the standard output cannot take the text (it cannot
      encode one of its characters, say): [print] of it raises
      [UnicodeEncodeError], a [ValueError], whose [str] is [msg] *)
  stdout_error : string → option string
}.

(** What a run has done so far. *)
Record effects := mk_effects {
  stdout : string;
  stderr : string;
  written : list (string * string);   (* path and text of each file written *)
  opened : list string                (* paths handed to [open] for reading *)
}.

Definition no_effects : effects := mk_effects "" "" [] [].

(** State and exceptions. *)
Definition io (A : Type) : Type := effects → result A * effects.

Global Instance io_ret : MRet io := λ A a st, (Ret a, st).
Global Instance io_bind : MBind io := λ A B k m st,
  match m st with
  | (Ret a, st') => k a st'
  | (Raise e, st') => (Raise e, st')
  end.

Definition lift {A} (r : result A) : io A := λ st, (r, st).

(** [try: m except ...: handler], the handler re-raising what it does not
    catch. *)
Definition try_except {A} (m : io A) (handler : exn → io A) : io A := λ st,
  match m st with
  | (Ret a, st') => (Ret a, st')
  | (Raise e, st') => handler e st'
  end.

(** The line terminator. *)
Definition newline : string := String (ascii_of_N 10) EmptyString.

(** [print(s)]: the text is encoded before any of it is written, so a
    failing [print] leaves the standard output as it was. *)
Definition print (w : env) (s : string) : io unit := λ st,
  match stdout_error w s with
  | Some msg => (Raise (Exc ValueError msg), st)
  | None =>
      (Ret (), mk_effects (stdout st +:+ s +:+ newline) (stderr st) (written st)
                          (opened st))
  end.

(** [print(s, file=sys.stderr)]; the error stream escapes what it cannot
    encode and does not fail. *)
Definition print_stderr (s : string) : io unit := λ st,
  (Ret (), mk_effects (stdout st) (stderr st +:+ s +:+ newline) (written st) (opened st)).

(** [sys.exit(code)] *)
Definition sys_exit {A} (code : Z) : io A := lift (Raise (SystemExit code)).

(** Opening a file for reading and handing it to [csv.DictReader]. *)
Definition open_read (w : env) (path : string)
  : io (list pyrow * option string) := λ st,
  let st' := mk_effects (stdout st) (stderr st) (written st) (opened st ++ [path]) in
  match files w path with
  | Missing => (Raise (Exc FileNotFoundError "No such file or directory"), st')
  | Unreadable msg => (Raise (Exc OtherException msg), st')
  | Content records failure => (Ret (Csv.DictReader records, failure), st')
  end.

(** [with open(path, 'w') as f: f.write(text)] *)
Definition write_file (w : env) (path text : string) : io unit := λ st,
  match write_error w path with
  | Some msg => (Raise (Exc OtherException msg), st)
  | None =>
      (Ret (), mk_effects (stdout st) (stderr st) (written st ++ [(path, text)])
                          (opened st))
  end.

(** [filter_complaints] *)
Definition filter_complaints (w : env) (input_file : string)
    (start_date end_date : datetime) : io dict :=
  let complaint_counts : dict := [] in
  try_except
    (reader ← open_read w input_file;
     complaint_counts ← lift (for_rows start_date end_date reader.1 complaint_counts);
     match reader.2 with
     | Some msg => lift (Raise (Exc OtherException msg))
     | None => mret complaint_counts
     end)
    (λ e, match e with
          | Exc FileNotFoundError _ =>
              print_stderr ("Error: File '" +:+ input_file +:+ "' not found.");;
              sys_exit 1
          | Exc _ msg =>
              print_stderr ("Error reading file: " +:+ msg);;
              sys_exit 1
          | SystemExit _ => lift (Raise e)
          end).

(** Tuples of strings compare at their first differing component. *)
Definition tuple_lt (a b : key) : bool :=
  if decide (a.1 = b.1) then String.ltb a.2 b.2 else String.ltb a.1 b.1.

(** The sort key [lambda x: (x[0][0], x[0][1])]. *)
Definition sort_key (x : key * Z) : key := (x.1.1, x.1.2).

(** [sorted(items, key=sort_key)]: a stable sort that only asks [<] of the
    keys. *)
Fixpoint insert_sorted (x : key * Z) (l : list (key * Z)) : list (key * Z) :=
  match l with
  | [] => [x]
  | y :: l' =>
      if tuple_lt (sort_key y) (sort_key x)
      then y :: insert_sorted x l' else x :: l
  end.

Fixpoint sorted (l : list (key * Z)) : list (key * Z) :=
  match l with
  | [] => []
  | x :: l' => insert_sorted x (sorted l')
  end.

Definition header_line : string := "complaint type, borough, count".

(** The f-string [f'{complaint_type}, {borough}, {count}']. *)
Definition format_line (item : key * Z) : string :=
  let '((complaint_type, borough), count) := item in
  complaint_type +:+ ", " +:+ borough +:+ ", " +:+ pretty count.

(** The list [output_lines] that [output_results] builds. *)
Definition output_lines (complaint_counts : dict) : list string :=
  let sorted_items := sorted complaint_counts in
  fold_left (fun lines item => lines ++ [format_line item])
            sorted_items [header_line].

(** [output_results]; an absent or empty [output_file] is falsy. *)
Definition output_results (w : env) (complaint_counts : dict)
    (output_file : option string) : io unit :=
  let lines := output_lines complaint_counts in
  match output_file with
  | Some path =>
      if String.eqb path "" then print w (PyStr.join newline lines)
      else
        try_except
          (write_file w path (PyStr.join newline lines +:+ newline))
          (λ e, match e with
                | Exc _ msg =>
                    print_stderr ("Error writing to file: " +:+ msg);;
                    sys_exit 1
                | SystemExit _ => lift (Raise e)
                end)
  | None => print w (PyStr.join newline lines)
  end.

(** The namespace [argparse] hands to [main]. *)
Record args := mk_args {
  arg_input : string;
  arg_start : string;
  arg_end : string;
  arg_output : option string
}.

(** The [try] block of [main] that parses the two dates. *)
Definition parse_window (a : args) : result (datetime * datetime) :=
  start_date ← datetime_strptime (PyStr (arg_start a)) "%m/%d/%Y";
  end_date ← datetime_strptime (PyStr (arg_end a)) "%m/%d/%Y";
  end_date ← Datetime.replace_hms end_date 23 59 59;
  Ret (start_date, end_date).

(** [main], after [parser.parse_args()]. *)
Definition main (w : env) (a : args) : io unit :=
  window ← try_except (lift (parse_window a))
    (λ e, match e with
          | Exc ValueError _ =>
              print_stderr "Error: Dates must be in MM/DD/YYYY format";;
              sys_exit 1
          | _ => lift (Raise e)
          end);
  let '(start_date, end_date) := window in
  if Datetime.gt start_date end_date then
    print_stderr "Error: Start date must be before or equal to end date";;
    sys_exit 1
  else
    complaint_counts ← filter_complaints w (arg_input a) start_date end_date;
    output_results w complaint_counts (arg_output a).

(** How the interpreter ends: status 0 when the script returns, the code
    of [sys.exit], and 1 for an exception that reaches the top level. The
    traceback that the interpreter then prints is not recorded in
    [stderr]. *)
Definition exit_of {A} (r : result A * effects) : Z * effects :=
  match r with
  | (Ret _, st) => (0, st)
  | (Raise (SystemExit code), st) => (code, st)
  | (Raise (Exc _ _), st) => (1, st)
  end.

(** A run of the script from the arguments [parser.parse_args()] has
    returned: its exit status and what it did. The exits of [argparse]
    itself (status 2 for a command line it refuses, status 0 after [-h])
    come before and are no runs in this sense. *)
Definition run (w : env) (a : args) : Z * effects :=
  exit_of (main w a no_effects).

(** * Vocabulary of the properties *)

(** [a < b] on keys, as a proposition, and the order of the sorted items. *)
Definition key_lt (a b : key) : Prop := tuple_lt a b = true.
Definition item_lt (x y : key * Z) : Prop := key_lt (sort_key x) (sort_key y).

(** The count of a key, 0 when the table has no entry for it. *)
Definition count_of (d : dict) (k : key) : Z := default 0 (dict_lookup d k).

(** Every key is entered once and every count is at least 1. *)
Definition table_ok (d : dict) : Prop :=
  NoDup d.*1 ∧ ∀ k c, dict_lookup d k = Some c → 1 ≤ c.

(** [a <= b] on timestamps. *)
Definition dt_le (a b : datetime) : bool :=
  match Datetime.compare a b with Gt => false | _ => true end.

(** What the constructor of [datetime] lets through. *)
Definition valid_datetime (t : datetime) : Prop :=
  Datetime.valid_date (year t) (month t) (day t) = true
  ∧ Datetime.valid_time (hour t) (minute t) (second t) (microsecond t) = true.

Definition is_ValueError (e : exn) : Prop := ∃ msg, e = Exc ValueError msg.

Definition is_Ret {A} (r : result A) : Prop := ∃ a, r = Ret a.

(** The rows a key's count is about, in the words of the specification:
    the creation date parses and lies in the inclusive window, and the
    two fields, trimmed, are the key's components and are not empty. *)
Definition counts_for (start_date end_date : datetime) (k : key) (row : pyrow)
  : bool :=
  match row !! "Created Date", row !! "Complaint Type", row !! "Borough" with
  | Some (PyStr created), Some (PyStr complaint_type), Some (PyStr borough) =>
      match Strptime.strptime created "%m/%d/%Y %I:%M:%S %p" with
      | Ret t =>
          dt_le start_date t && dt_le t end_date
          && bool_decide (PyStr.strip complaint_type = k.1)
          && bool_decide (PyStr.strip borough = k.2)
          && negb (String.eqb k.1 "") && negb (String.eqb k.2 "")
      | Raise _ => false
      end
  | _, _, _ => false
  end.

Definition rows_counted (start_date end_date : datetime) (k : key)
    (rows : list pyrow) : nat :=
  length (List.filter (counts_for start_date end_date k) rows).

(** The last second of the calendar day of [t]. *)
Definition end_of_day (t : datetime) : datetime :=
  mk_datetime (year t) (month t) (day t) 23 59 59 0.

(** [a] falls on the calendar day of [b] or on an earlier one. *)
Definition not_after_day (a b : datetime) : bool :=
  match Datetime.lex (year a ?= year b)
          (Datetime.lex (month a ?= month b) (day a ?= day b)) with
  | Gt => false
  | _ => true
  end.

(** Effects, one step on. *)
Definition note_opened (st : effects) (path : string) : effects :=
  mk_effects (stdout st) (stderr st) (written st) (opened st ++ [path]).

Definition note_stderr (st : effects) (s : string) : effects :=
  mk_effects (stdout st) (stderr st +:+ s +:+ newline) (written st) (opened st).

(** The world [w] with the file at [path] replaced. *)
Definition with_file (w : env) (path : string) (f : file_state) : env :=
  mk_env (λ p, if decide (p = path) then f else files w p) (write_error w)
         (stdout_error w).

(** The text [output_results] emits for a table: its lines, each ended
    by a line end. *)
Definition output_text (d : dict) : string :=
  PyStr.join newline (output_lines d) +:+ newline.

(** What [print] of the text of a table does. *)
Definition print_outcome (w : env) (d : dict) (st : effects)
  : result unit * effects :=
  match stdout_error w (PyStr.join newline (output_lines d)) with
  | None =>
      (Ret (), mk_effects (stdout st +:+ output_text d) (stderr st)
                 (written st) (opened st))
  | Some msg => (Raise (Exc ValueError msg), st)
  end.

(** The file [output_results] writes to: none when the output argument is
    absent or empty, and the text then goes to the standard output. *)
Definition destination (output_file : option string) : option string :=
  match output_file with
  | Some path => if String.eqb path "" then None else Some path
  | None => None
  end.

(** [sum(complaint_counts.values())] *)
Definition total_count (d : dict) : Z := foldr (λ item acc, item.2 + acc) 0 d.

(** A row passes the filter: its creation date parses into the window and
    neither the complaint type nor the borough is blank. *)
Definition row_passes (start_date end_date : datetime) (row : pyrow) : bool :=
  match row !! "Created Date", row !! "Complaint Type", row !! "Borough" with
  | Some (PyStr created), Some (PyStr complaint_type), Some (PyStr borough) =>
      match Strptime.strptime created "%m/%d/%Y %I:%M:%S %p" with
      | Ret t =>
          dt_le start_date t && dt_le t end_date
          && negb (String.eqb (PyStr.strip complaint_type) "")
          && negb (String.eqb (PyStr.strip borough) "")
      | Raise _ => false
      end
  | _, _, _ => false
  end.

(** The first and the last character of a string. *)
Definition first_char (s : string) : option ascii :=
  match s with
  | EmptyString => None
  | String c _ => Some c
  end.

Fixpoint last_char (s : string) : option ascii :=
  match s with
  | EmptyString => None
  | String c EmptyString => Some c
  | String _ s' => last_char s'
  end.

(** No blank at either end. *)
Definition trimmed (s : string) : Prop :=
  (∀ c, first_char s = Some c → PyStr.is_space c = false)
  ∧ (∀ c, last_char s = Some c → PyStr.is_space c = false).

(** Three comparisons that fit together as those of [a] with [b], [b] with
    [c] and [a] with [c]. *)
Definition fits (ab bc ac : comparison) : Prop :=
  (ab = Eq → ac = bc) ∧ (bc = Eq → ac = ab) ∧ (ab = Lt → bc = Lt → ac = Lt).

(** ** Timestamps written out *)

(** The character of a decimal digit. *)
Definition digit_char (n : Z) : ascii := ascii_of_N (48 + Z.to_N n).

Definition two_digits (n : Z) : string :=
  String (digit_char (n / 10)) (String (digit_char (n mod 10)) "").

Definition four_digits (n : Z) : string :=
  String (digit_char (n / 1000))
    (String (digit_char (n / 100 mod 10)) (two_digits (n mod 100))).

(** The hour on the 12-hour clock, and the half of the day. *)
Definition hour12 (h : Z) : Z := if h mod 12 =? 0 then 12 else h mod 12.
Definition am_pm (h : Z) : string := if h <? 12 then "AM" else "PM".

(** A date in the form MM/DD/YYYY. *)
Definition date_text (t : datetime) : string :=
  two_digits (month t) +:+ "/" +:+ two_digits (day t) +:+ "/"
  +:+ four_digits (year t).

(** A timestamp in the form MM/DD/YYYY hh:mm:ss AM/PM. *)
Definition timestamp_text (t : datetime) : string :=
  two_digits (month t) +:+ "/" +:+ two_digits (day t) +:+ "/"
  +:+ four_digits (year t) +:+ " "
  +:+ two_digits (hour12 (hour t)) +:+ ":" +:+ two_digits (minute t) +:+ ":"
  +:+ two_digits (second t) +:+ " " +:+ am_pm (hour t).

(** Midnight of the day of [t]. *)
Definition start_of_day (t : datetime) : datetime :=
  mk_datetime (year t) (month t) (day t) 0 0 0 0.

(** The regular expression of a directive. *)
Definition re_of (d : ascii) : Regex.regex :=
  default Regex.Eps (Strptime.directive d).

(** The first match of [r] at the head of [s] binds the groups [g] and
    leaves [rest]. *)
Definition matches_to (r : Regex.regex) (s : string)
    (g : list (string * string)) (rest : string) : Prop :=
  ∃ m, Regex.re_match r s = Some (m, g, rest).

(** The directive [d] reads the two digits of [n] under the name [name],
    and [int] gives [n] back. *)
Definition field_ok (d : ascii) (name : string) (n : Z) : Prop :=
  ∀ rest,
    matches_to (re_of d) (two_digits n +:+ rest) [(name, two_digits n)] rest
    ∧ PyStr.int (two_digits n) = Ret n.

(** * Sample inputs *)

Definition sample_header : list string :=
  ["Unique Key"; "Created Date"; "Complaint Type"; "Borough"].

(** Two complaints in the Bronx and one in Brooklyn on New Year's Day,
    a blank record, and three rows that the filter skips. *)
Definition sample_records : list (list string) :=
  [ sample_header;
    ["1"; "01/01/2024 10:00:00 AM"; "Noise"; "BRONX"];
    ["2"; "01/01/2024 11:00:00 AM"; "Noise"; "BROOKLYN"];
    [];
    ["3"; "01/01/2024 11:59:59 PM"; " Noise "; "BRONX"; "surplus"];
    ["4"; "01/02/2024 12:00:00 AM"; "Noise"; "BRONX"];
    ["5"; "yesterday"; "Noise"; "BRONX"];
    ["6"; "01/01/2024 09:00:00 AM"; "  "; "QUEENS"] ].

(** The same rows in another order. *)
Definition sample_shuffled : list (list string) :=
  [ ["6"; "01/01/2024 09:00:00 AM"; "  "; "QUEENS"];
    ["2"; "01/01/2024 11:00:00 AM"; "Noise"; "BROOKLYN"];
    ["5"; "yesterday"; "Noise"; "BRONX"];
    ["3"; "01/01/2024 11:59:59 PM"; " Noise "; "BRONX"; "surplus"];
    [];
    ["4"; "01/02/2024 12:00:00 AM"; "Noise"; "BRONX"];
    ["1"; "01/01/2024 10:00:00 AM"; "Noise"; "BRONX"] ].


Definition sample_write_error : string :=
  "[Errno 2] No such file or directory: 'missing_dir/out.csv'".

(** A world with one input file, [data.csv], and one path that cannot be
    written. *)
Definition sample_world (records : list (list string)) : env :=
  mk_env
    (λ p, if decide (p = "data.csv") then Content records None else Missing)
    (λ p, if decide (p = "missing_dir/out.csv")
          then Some sample_write_error else None)
    (λ text, None).

Definition sample_args : args := mk_args "data.csv" "01/01/2024" "01/01/2024" None.

(** The table the sample rows give for New Year's Day. *)
Definition sample_table : dict :=
  [(("Noise", "BRONX"), 2); (("Noise", "BROOKLYN"), 1)].

Definition jan_1 : datetime := mk_datetime 2024 1 1 0 0 0 0.
Definition jan_1_end : datetime := mk_datetime 2024 1 1 23 59 59 0.

(** The end of January: a complaint in the last second of the 31st and
    one at midnight of February 1st. *)
Definition january_records : list (list string) :=
  [ sample_header;
    ["1"; "01/31/2024 11:59:59 PM"; "Noise"; "BRONX"];
    ["2"; "02/01/2024 12:00:00 AM"; "Noise"; "QUEENS"] ].

Definition january_args : args := mk_args "data.csv" "01/01/2024" "01/31/2024" None.

(** A record with fewer fields than the header, before a well-formed one. *)
Definition short_row_records : list (list string) :=
  [ sample_header;
    ["7"];
    ["8"; "01/01/2024 10:00:00 AM"; "Noise"; "BRONX"] ].

(** A record that stops after its creation date. *)
Definition short_fields_records : list (list string) :=
  [ sample_header;
    ["9"; "01/01/2024 10:00:00 AM"];
    ["8"; "01/01/2024 10:00:00 AM"; "Noise"; "BRONX"] ].

(** The sample file cut in two after its third record. *)
Definition sample_first_rows : list pyrow :=
  Csv.DictReader (take 3 sample_records).
Definition sample_later_rows : list pyrow :=
  map (Csv.make_row sample_header) (List.filter Csv.nonblank (drop 3 sample_records)).

Definition jan_2_end : datetime := mk_datetime 2024 1 2 23 59 59 0.

(** * Properties *)

(** ** The order on keys *)

Section key_order.

Lemma ltb_le_ne (a b : string) : String.ltb a b = true ↔ String.le a b ∧ a ≠ b.
Proof.
  unfold String.le, String.ltb, String.leb.
  destruct (String.compare a b) eqn:E; split; try (intros [? ?]); try done.
  - apply String.compare_eq_iff in E. done.
  - split; [done|]. intros ->.
    pose proof (String.compare_antisym b b) as Hbb.
    rewrite E in Hbb. done.
Qed.

Lemma ltb_irrefl (a : string) : String.ltb a a = false.
Proof.
  destruct (String.ltb a a) eqn:E; [|done].
  apply ltb_le_ne in E as [_ ?]. done.
Qed.

Lemma ltb_trans (a b c : string) :
  String.ltb a b = true → String.ltb b c = true → String.ltb a c = true.
Proof.
  rewrite !ltb_le_ne. intros [Hab Hne] [Hbc Hne']. split.
  - by etrans.
  - intros ->. apply Hne. by apply (anti_symm String.le).
Qed.

Lemma ltb_trichotomy (a b : string) :
  a ≠ b → String.ltb a b = true ∨ String.ltb b a = true.
Proof.
  intros Hne. rewrite !ltb_le_ne.
  destruct (total String.le a b); [left|right]; split; congruence.
Qed.

Lemma key_lt_irrefl (a : key) : ¬ key_lt a a.
Proof.
  unfold key_lt, tuple_lt. rewrite decide_True by done.
  by rewrite ltb_irrefl.
Qed.

Lemma key_lt_trans (a b c : key) : key_lt a b → key_lt b c → key_lt a c.
Proof.
  unfold key_lt, tuple_lt. destruct a as [a1 a2], b as [b1 b2], c as [c1 c2]; simpl.
  intros Hab Hbc. repeat case_decide; subst; try done;
    try (by eapply ltb_trans).
  pose proof (ltb_trans _ _ _ Hab Hbc) as Hc.
  by rewrite ltb_irrefl in Hc.
Qed.

Lemma key_lt_trichotomy (a b : key) : a ≠ b → key_lt a b ∨ key_lt b a.
Proof.
  unfold key_lt, tuple_lt. destruct a as [a1 a2], b as [b1 b2]; simpl.
  intros Hne. repeat case_decide; subst; try done.
  - apply ltb_trichotomy. congruence.
  - by apply ltb_trichotomy.
Qed.

(** The order is the lexicographic one: first component, then second. *)
Lemma key_lt_lexicographic (a b : key) :
  key_lt a b
  ↔ String.ltb a.1 b.1 = true ∨ (a.1 = b.1 ∧ String.ltb a.2 b.2 = true).
Proof.
  unfold key_lt, tuple_lt. case_decide as Heq.
  - rewrite Heq, ltb_irrefl. split; [by right|]. by intros [?|[_ ?]].
  - split; [by left|]. by intros [?|[? _]].
Qed.

Lemma key_lt_asym (a b : key) : key_lt a b → key_lt b a → False.
Proof. intros H1 H2. exact (key_lt_irrefl a (key_lt_trans _ _ _ H1 H2)). Qed.

End key_order.

(** ** The count table *)

Section count_table.
Implicit Types (d : dict) (k : key) (v c : Z).

Lemma dict_lookup_setitem_eq d k v :
  dict_lookup (dict_setitem d k v) k = Some v.
Proof.
  induction d as [|[k' v'] d IH]; simpl.
  - by rewrite decide_True.
  - destruct (decide (k' = k)); simpl.
    + by rewrite decide_True.
    + by rewrite decide_False.
Qed.

Lemma dict_lookup_setitem_ne d k k' v :
  k ≠ k' → dict_lookup (dict_setitem d k v) k' = dict_lookup d k'.
Proof.
  intros Hne. induction d as [|[k0 v0] d IH]; simpl.
  - by rewrite decide_False.
  - destruct (decide (k0 = k)) as [->|]; simpl.
    + by rewrite !decide_False.
    + by rewrite IH.
Qed.

Lemma dict_lookup_None d k : dict_lookup d k = None ↔ k ∉ d.*1.
Proof.
  induction d as [|[k' v'] d IH]; simpl.
  - split; [intros _; apply not_elem_of_nil | done].
  - rewrite not_elem_of_cons. destruct (decide (k' = k)) as [->|].
    + split; [done|]. by intros [? _].
    + rewrite IH. split; [by split|]. by intros [_ ?].
Qed.

Lemma dict_lookup_Some_elem d k v : dict_lookup d k = Some v → (k, v) ∈ d.
Proof.
  induction d as [|[k' v'] d IH]; simpl; [done|].
  destruct (decide (k' = k)) as [->|].
  - intros [= ->]. left.
  - intros ?. right. auto.
Qed.

Lemma dict_elem_lookup d k v :
  NoDup d.*1 → (k, v) ∈ d → dict_lookup d k = Some v.
Proof.
  induction d as [|[k' v'] d IH]; simpl; intros Hnd Hin.
  - by apply elem_of_nil in Hin.
  - apply NoDup_cons in Hnd as [Hk' Hnd].
    apply elem_of_cons in Hin as [[= <- <-]|Hin].
    + by rewrite decide_True.
    + rewrite decide_False; [by apply IH|].
      intros ->. apply Hk'. by apply (list_elem_of_fmap_2 fst _ (k, v)).
Qed.

Lemma keys_setitem d k v :
  (dict_setitem d k v).*1
  = match dict_lookup d k with Some _ => d.*1 | None => d.*1 ++ [k] end.
Proof.
  induction d as [|[k' v'] d IH]; csimpl; [done|].
  destruct (decide (k' = k)) as [->|]; csimpl; [done|].
  rewrite IH. by destruct (dict_lookup d k).
Qed.

Lemma NoDup_setitem d k v : NoDup d.*1 → NoDup (dict_setitem d k v).*1.
Proof.
  intros Hnd. rewrite keys_setitem.
  destruct (dict_lookup d k) eqn:E; [done|].
  apply NoDup_app. split_and!; [done| |apply NoDup_singleton].
  intros k' Hk' ->%list_elem_of_singleton. by apply dict_lookup_None in E.
Qed.

Lemma lookup_increment d k k' :
  dict_lookup (increment d k) k'
  = if decide (k = k') then Some (count_of d k + 1) else dict_lookup d k'.
Proof.
  unfold increment, defaultdict_getitem, count_of.
  destruct (dict_lookup d k) eqn:E; simpl; case_decide; subst.
  - by rewrite dict_lookup_setitem_eq.
  - by rewrite dict_lookup_setitem_ne.
  - by rewrite dict_lookup_setitem_eq.
  - by rewrite !dict_lookup_setitem_ne.
Qed.

Lemma count_of_increment d k k' :
  count_of (increment d k) k' = count_of d k' + (if decide (k = k') then 1 else 0).
Proof.
  unfold count_of at 1. rewrite lookup_increment.
  case_decide; subst; simpl; [done|]. unfold count_of. lia.
Qed.

Lemma table_ok_nil : table_ok [].
Proof. split; [constructor|done]. Qed.

Lemma table_ok_increment d k : table_ok d → table_ok (increment d k).
Proof.
  intros [Hnd Hpos]. split.
  - unfold increment, defaultdict_getitem.
    destruct (dict_lookup d k); simpl; by repeat apply NoDup_setitem.
  - intros k' c. rewrite lookup_increment. case_decide; [|by apply Hpos].
    intros [= <-]. unfold count_of.
    destruct (dict_lookup d k) as [c'|] eqn:E; simpl; [|lia].
    apply Hpos in E. lia.
Qed.

(** A table that is in order is determined by its counts. *)
Lemma table_ok_lookup_count d k :
  table_ok d →
  dict_lookup d k = if decide (count_of d k = 0) then None else Some (count_of d k).
Proof.
  intros [_ Hpos]. unfold count_of.
  destruct (dict_lookup d k) as [c|] eqn:E; simpl; [|done].
  apply Hpos in E. rewrite decide_False by lia. done.
Qed.

Lemma table_ok_perm d1 d2 :
  table_ok d1 → table_ok d2 →
  (∀ k, count_of d1 k = count_of d2 k) → d1 ≡ₚ d2.
Proof.
  intros Hok1 Hok2 Hcount.
  assert (∀ d, NoDup d.*1 → NoDup d) as Hnd.
  { intros d. apply (NoDup_fmap_1 fst). }
  apply NoDup_Permutation; [apply Hnd, Hok1 | apply Hnd, Hok2 |].
  intros [k c]. split; intros Hin.
  - apply dict_lookup_Some_elem. apply dict_elem_lookup in Hin; [|apply Hok1].
    rewrite table_ok_lookup_count in Hin |- * by done.
    by rewrite <-Hcount.
  - apply dict_lookup_Some_elem. apply dict_elem_lookup in Hin; [|apply Hok2].
    rewrite table_ok_lookup_count in Hin |- * by done.
    by rewrite Hcount.
Qed.

End count_table.

(** ** Sorting the items *)

Section sorting.
Implicit Types (x y : key * Z) (l : list (key * Z)).

Lemma sort_key_fst x : sort_key x = x.1.
Proof. by destruct x as [[??]?]. Qed.

Lemma insert_sorted_perm x l : insert_sorted x l ≡ₚ x :: l.
Proof.
  induction l as [|y l IH]; simpl; [done|].
  destruct (tuple_lt _ _); [|done].
  rewrite IH. apply Permutation_swap.
Qed.

Lemma sorted_perm l : sorted l ≡ₚ l.
Proof.
  induction l as [|x l IH]; simpl; [done|].
  by rewrite insert_sorted_perm, IH.
Qed.

Lemma insert_sorted_StronglySorted x l :
  StronglySorted item_lt l → x.1 ∉ l.*1 →
  StronglySorted item_lt (insert_sorted x l).
Proof.
  induction 1 as [|y l Hs IH Hall]; simpl; intros Hx.
  - repeat constructor.
  - apply not_elem_of_cons in Hx as [Hne Hx].
    destruct (tuple_lt (sort_key y) (sort_key x)) eqn:E.
    + constructor; [by apply IH|].
      rewrite insert_sorted_perm. by constructor.
    + assert (item_lt x y) as Hxy.
      { unfold item_lt. rewrite !sort_key_fst in *.
        destruct (key_lt_trichotomy x.1 y.1 Hne) as [?|Hyx]; [done|].
        unfold key_lt in Hyx. congruence. }
      constructor; [by constructor|].
      constructor; [done|].
      eapply Forall_impl; [exact Hall|].
      intros z Hyz. unfold item_lt in *. by eapply key_lt_trans.
Qed.

Lemma sorted_StronglySorted l :
  NoDup l.*1 → StronglySorted item_lt (sorted l).
Proof.
  induction l as [|x l IH]; simpl; intros Hnd; [constructor|].
  apply NoDup_cons in Hnd as [Hx Hnd].
  apply insert_sorted_StronglySorted; [by apply IH|].
  by rewrite sorted_perm.
Qed.

(** The sorted items do not depend on the order of the table. *)
Lemma sorted_perm_eq l1 l2 :
  NoDup l1.*1 → l1 ≡ₚ l2 → sorted l1 = sorted l2.
Proof.
  intros Hnd Hp.
  apply (StronglySorted_unique_strong item_lt).
  - intros x y _ _ Hxy Hyx. destruct (key_lt_asym _ _ Hxy Hyx).
  - by apply sorted_StronglySorted.
  - apply sorted_StronglySorted. by rewrite <-Hp.
  - by rewrite !sorted_perm.
Qed.

End sorting.

(** ** Dates *)

Section dates.
Implicit Types (a b t : datetime).

Lemma lex_opp c1 c2 :
  CompOpp (Datetime.lex c1 c2) = Datetime.lex (CompOpp c1) (CompOpp c2).
Proof. by destruct c1. Qed.

Lemma compare_antisym a b :
  Datetime.compare b a = CompOpp (Datetime.compare a b).
Proof.
  unfold Datetime.compare. rewrite !lex_opp.
  by rewrite <-!Z.compare_antisym.
Qed.

Lemma lt_false_le t a : Datetime.lt t a = false ↔ dt_le a t = true.
Proof.
  unfold Datetime.lt, dt_le. rewrite (compare_antisym t a).
  by destruct (Datetime.compare t a).
Qed.

Lemma gt_false_le t b : Datetime.gt t b = false ↔ dt_le t b = true.
Proof. unfold Datetime.gt, dt_le. by destruct (Datetime.compare t b). Qed.

(** The test of the loop rejects exactly what lies outside [a, b]. *)
Lemma window_test t a b :
  Datetime.lt t a || Datetime.gt t b = negb (dt_le a t && dt_le t b).
Proof.
  unfold Datetime.lt, Datetime.gt, dt_le. rewrite (compare_antisym t a).
  by destruct (Datetime.compare t a), (Datetime.compare t b).
Qed.

Lemma new_Ret y m d h mi s us t :
  Datetime.new y m d h mi s us = Ret t →
  t = mk_datetime y m d h mi s us ∧ valid_datetime t.
Proof.
  unfold Datetime.new, valid_datetime.
  destruct (Datetime.valid_date y m d) eqn:E1; simpl; [|done].
  destruct (Datetime.valid_time h mi s us) eqn:E2; simpl; [|done].
  by intros [= <-].
Qed.

Lemma new_Raise y m d h mi s us e :
  Datetime.new y m d h mi s us = Raise e → ∃ msg, e = Exc ValueError msg.
Proof. unfold Datetime.new. case_match; [done|]. intros [= <-]. eauto. Qed.

End dates.

(** ** The date parser *)

Section parser.

Lemma int_Raise s e : PyStr.int s = Raise e → is_ValueError e.
Proof.
  unfold PyStr.int, is_ValueError. repeat case_match; try done; intros [= <-]; eauto.
Qed.

Lemma group_int_Raise g name dflt e :
  Strptime.group_int g name dflt = Raise e → is_ValueError e.
Proof. unfold Strptime.group_int. case_match; [apply int_Raise|done]. Qed.

Lemma hour_of_Raise g e : Strptime.hour_of g = Raise e → is_ValueError e.
Proof.
  unfold Strptime.hour_of. case_match; [|done].
  destruct (PyStr.int _) eqn:E; simpl.
  - repeat case_decide; done.
  - intros [= <-]. by eapply int_Raise.
Qed.

(** On a string, the library only ever raises [ValueError]. *)
Lemma strptime_str_Raise s format e :
  Strptime.strptime s format = Raise e → is_ValueError e.
Proof.
  unfold Strptime.strptime.
  destruct (Strptime.pattern false format); [|intros [= <-]; red; eauto].
  destruct (Regex.re_match _ _) as [[[? g] rest]|]; [|intros [= <-]; red; eauto].
  destruct (negb _); [intros [= <-]; red; eauto|].
  destruct (Strptime.group_int g "Y" 1900) eqn:EY; simpl;
    [|intros [= <-]; by eapply group_int_Raise].
  destruct (Strptime.group_int g "m" 1) eqn:Em; simpl;
    [|intros [= <-]; by eapply group_int_Raise].
  destruct (Strptime.group_int g "d" 1) eqn:Ed; simpl;
    [|intros [= <-]; by eapply group_int_Raise].
  destruct (Strptime.hour_of g) eqn:Eh; simpl;
    [|intros [= <-]; by eapply hour_of_Raise].
  destruct (Strptime.group_int g "M" 0) eqn:EM; simpl;
    [|intros [= <-]; by eapply group_int_Raise].
  destruct (Strptime.group_int g "S" 0) eqn:ES; simpl;
    [|intros [= <-]; by eapply group_int_Raise].
  apply new_Raise.
Qed.

Lemma strptime_str_valid s format t :
  Strptime.strptime s format = Ret t → valid_datetime t ∧ microsecond t = 0.
Proof.
  unfold Strptime.strptime.
  destruct (Strptime.pattern false format); [|done].
  destruct (Regex.re_match _ _) as [[[? g] rest]|]; [|done].
  destruct (negb _); [done|].
  destruct (Strptime.group_int g "Y" 1900); simpl; [|done].
  destruct (Strptime.group_int g "m" 1); simpl; [|done].
  destruct (Strptime.group_int g "d" 1); simpl; [|done].
  destruct (Strptime.hour_of g); simpl; [|done].
  destruct (Strptime.group_int g "M" 0); simpl; [|done].
  destruct (Strptime.group_int g "S" 0); simpl; [|done].
  intros [-> ?]%new_Ret. done.
Qed.

(** [parse_date] on a string: the timestamp, or [None]; never an exception. *)
Lemma parse_date_str s :
  parse_date (PyStr s)
  = Ret (match Strptime.strptime s "%m/%d/%Y %I:%M:%S %p" with
         | Ret t => Some t
         | Raise _ => None
         end).
Proof.
  unfold parse_date, datetime_strptime.
  destruct (Strptime.strptime s _) as [t|e] eqn:E; [done|].
  apply strptime_str_Raise in E as [msg ->]. done.
Qed.

End parser.

(** ** The filter and aggregation pass *)

Section aggregation.
Variables start_date end_date : datetime.
Implicit Types (row : pyrow) (rows : list pyrow) (d : dict) (k : key).

(** The loop body raises nothing but the [TypeError] of the parser and
    the [AttributeError] of [strip]. *)
Lemma loop_body_Raise row e :
  loop_body start_date end_date row = Raise e →
  ∃ c msg, e = Exc c msg ∧ (c = TypeError ∨ c = AttributeError).
Proof.
  unfold loop_body, row_get.
  destruct (row !! "Created Date") as [[|s]|]; simpl.
  - intros [= <-]. eauto 6.
  - rewrite parse_date_str. simpl.
    destruct (Strptime.strptime s _) as [t|]; simpl; [|done].
    destruct (_ || _); [done|].
    destruct (row !! "Complaint Type") as [[|ct]|]; simpl;
      [intros [= <-]; eauto 6|..];
      (destruct (row !! "Borough") as [[|b]|]; simpl;
         [intros [= <-]; eauto 6|..]);
      first [done | by destruct (_ || _)].
  - done.
Qed.

(** A row that the loop body passes is counted for exactly the key the
    body hands to the increment. *)
Lemma loop_body_counts row step k :
  loop_body start_date end_date row = Ret step →
  counts_for start_date end_date k row = bool_decide (step = Some k).
Proof.
  unfold loop_body, counts_for, row_get.
  destruct (row !! "Created Date") as [[|s]|]; simpl; [done| |].
  2:{ intros [= <-]. done. }
  rewrite parse_date_str. simpl.
  destruct (Strptime.strptime s _) as [t|]; simpl.
  2:{ intros [= <-]. by repeat case_match. }
  rewrite window_test.
  destruct (dt_le start_date t && dt_le t end_date); simpl.
  2:{ intros [= <-]. by repeat case_match. }
  destruct (row !! "Complaint Type") as [[|ct]|]; simpl; [done| |].
  2:{ intros Hstep.
      destruct (row !! "Borough") as [[|b]|]; simpl in Hstep; by simplify_eq. }
  destruct (row !! "Borough") as [[|b]|]; simpl; [done| |].
  2:{ rewrite orb_true_r. by intros [= <-]. }
  destruct k as [k1 k2]; simpl.
  destruct (String.eqb_spec (PyStr.strip ct) "") as [Hct|Hct]; simpl.
  { intros [= <-]. rewrite Hct.
    destruct (String.eqb_spec k1 "") as [->|]; simpl;
      [by rewrite andb_false_r|].
    by rewrite (bool_decide_false ("" = k1)). }
  destruct (String.eqb_spec (PyStr.strip b) "") as [Hb|Hb]; simpl.
  { intros [= <-]. rewrite Hb.
    destruct (String.eqb_spec k2 "") as [->|]; simpl;
      [by rewrite andb_false_r|].
    rewrite (bool_decide_false ("" = k2)) by done.
    by rewrite andb_false_r. }
  intros [= <-].
  destruct (decide (PyStr.strip ct = k1)) as [<-|];
    [|by rewrite (bool_decide_false (PyStr.strip ct = k1)),
                 (bool_decide_false (Some _ = Some _)) by congruence].
  destruct (decide (PyStr.strip b = k2)) as [<-|];
    [|rewrite (bool_decide_false (PyStr.strip b = k2)),
              (bool_decide_false (Some _ = Some _)) by congruence;
      by rewrite andb_false_r].
  rewrite !bool_decide_true by done.
  apply String.eqb_neq in Hct, Hb. by rewrite Hct, Hb.
Qed.

Lemma for_rows_spec rows d d' :
  for_rows start_date end_date rows d = Ret d' →
  table_ok d →
  table_ok d'
  ∧ ∀ k, count_of d' k
         = count_of d k + Z.of_nat (rows_counted start_date end_date k rows).
Proof.
  revert d. induction rows as [|row rows IH]; simpl; intros d.
  - intros [= <-] Hok. split; [done|]. intros k. unfold rows_counted. simpl. lia.
  - destruct (loop_body start_date end_date row) as [step|] eqn:Estep; simpl;
      [|done].
    intros Hfor Hok.
    apply IH in Hfor as [Hok' Hcount].
    2:{ destruct step; [by apply table_ok_increment|done]. }
    split; [done|]. intros k. rewrite Hcount.
    unfold rows_counted. simpl.
    rewrite (loop_body_counts _ _ k Estep).
    destruct step as [k'|].
    + rewrite count_of_increment.
      destruct (decide (k' = k)) as [->|].
      * rewrite bool_decide_true by done. simpl. lia.
      * rewrite bool_decide_false by congruence. lia.
    + rewrite bool_decide_false by done. lia.
Qed.

Lemma for_rows_is_Ret rows d :
  is_Ret (for_rows start_date end_date rows d)
  ↔ Forall (λ row, is_Ret (loop_body start_date end_date row)) rows.
Proof.
  revert d. induction rows as [|row rows IH]; simpl; intros d.
  - split; [constructor|]. intros _. by eexists.
  - rewrite Forall_cons.
    destruct (loop_body start_date end_date row) as [step|] eqn:Estep; simpl.
    + rewrite IH. split; [|by intros [_ ?]]. intros ?. split; [by eexists|done].
    + split; [by intros [? ?]|]. by intros [[? ?] _].
Qed.

Lemma for_rows_Raise rows d e :
  for_rows start_date end_date rows d = Raise e →
  ∃ c msg, e = Exc c msg ∧ (c = TypeError ∨ c = AttributeError).
Proof.
  revert d. induction rows as [|row rows IH]; simpl; intros d; [done|].
  destruct (loop_body start_date end_date row) as [step|] eqn:Estep; simpl.
  - apply IH.
  - intros [= <-]. by eapply loop_body_Raise.
Qed.

Lemma rows_counted_perm k rows1 rows2 :
  rows1 ≡ₚ rows2 →
  rows_counted start_date end_date k rows1 = rows_counted start_date end_date k rows2.
Proof.
  intros Hp. unfold rows_counted.
  induction Hp; simpl; repeat case_match; simpl; congruence.
Qed.

(** Two runs of the loop over the same rows in different orders end the
    same way: both raise, or both return tables with the same entries. *)
Lemma for_rows_perm rows1 rows2 :
  rows1 ≡ₚ rows2 →
  match for_rows start_date end_date rows1 [], for_rows start_date end_date rows2 [] with
  | Ret d1, Ret d2 => table_ok d1 ∧ d1 ≡ₚ d2
  | Raise _, Raise _ => True
  | _, _ => False
  end.
Proof.
  intros Hp.
  assert (is_Ret (for_rows start_date end_date rows1 [])
          ↔ is_Ret (for_rows start_date end_date rows2 [])) as H1.
  { rewrite !for_rows_is_Ret. by rewrite Hp. }
  destruct (for_rows _ _ rows1 []) as [d1|] eqn:E1,
           (for_rows _ _ rows2 []) as [d2|] eqn:E2; [|exfalso..|done].
  - apply for_rows_spec in E1 as [Hok1 Hc1]; [|apply table_ok_nil].
    apply for_rows_spec in E2 as [Hok2 Hc2]; [|apply table_ok_nil].
    split; [done|]. apply table_ok_perm; [done..|].
    intros k. by rewrite Hc1, Hc2, (rows_counted_perm k _ _ Hp).
  - destruct (proj1 H1) as [? ?]; [by eexists|done].
  - destruct (proj2 H1) as [? ?]; [by eexists|done].
Qed.

End aggregation.

(** ** Runs of the script *)

Section runs.
Implicit Types (w : env) (a : args) (st : effects) (d : dict).

Lemma with_file_lookup w path f : files (with_file w path f) path = f.
Proof. simpl. by rewrite decide_True. Qed.

(** [filter_complaints] when the file cannot be opened. *)
Lemma filter_complaints_Missing w path s e st :
  files w path = Missing →
  filter_complaints w path s e st
  = (Raise (SystemExit 1),
     note_stderr (note_opened st path) ("Error: File '" +:+ path +:+ "' not found.")).
Proof.
  intros Hf. unfold filter_complaints, try_except, open_read, mbind, io_bind.
  by rewrite Hf.
Qed.

Lemma filter_complaints_Unreadable w path s e st msg :
  files w path = Unreadable msg →
  filter_complaints w path s e st
  = (Raise (SystemExit 1),
     note_stderr (note_opened st path) ("Error reading file: " +:+ msg)).
Proof.
  intros Hf. unfold filter_complaints, try_except, open_read, mbind, io_bind.
  by rewrite Hf.
Qed.

(** [filter_complaints] when the file opens. *)
Lemma filter_complaints_Content w path s e st records failure :
  files w path = Content records failure →
  filter_complaints w path s e st
  = match for_rows s e (Csv.DictReader records) [] with
    | Ret d =>
        match failure with
        | None => (Ret d, note_opened st path)
        | Some msg =>
            (Raise (SystemExit 1),
             note_stderr (note_opened st path) ("Error reading file: " +:+ msg))
        end
    | Raise (Exc _ msg) =>
        (Raise (SystemExit 1),
         note_stderr (note_opened st path) ("Error reading file: " +:+ msg))
    | Raise (SystemExit code) => (Raise (SystemExit code), note_opened st path)
    end.
Proof.
  intros Hf. unfold filter_complaints, try_except, open_read, mbind, io_bind, lift.
  rewrite Hf. simpl.
  destruct (for_rows s e _ []) as [d|ex] eqn:E.
  - by destruct failure.
  - destruct (for_rows_Raise _ _ _ _ _ E) as (c & msg & -> & [-> | ->]); done.
Qed.

(** In every case [filter_complaints] leaves the standard output and the
    files alone, and ends by returning or by [sys.exit(1)]. *)
Lemma filter_complaints_quiet w path s e st :
  let r := filter_complaints w path s e st in
  stdout r.2 = stdout st ∧ written r.2 = written st
  ∧ (is_Ret r.1 ∨ (r.1 = Raise (SystemExit 1)
                   ∧ ∃ msg, stderr r.2 = stderr st +:+ msg +:+ newline)).
Proof.
  destruct (files w path) as [|msg|records failure] eqn:Hf; simpl.
  - rewrite filter_complaints_Missing by done. simpl. eauto 6.
  - rewrite (filter_complaints_Unreadable _ _ _ _ _ msg) by done. simpl. eauto 6.
  - rewrite (filter_complaints_Content _ _ _ _ _ records failure) by done.
    destruct (for_rows s e _ []) as [d|ex] eqn:E.
    + destruct failure; simpl; [eauto 6|]. split_and!; [done..|]. left. by eexists.
    + destruct (for_rows_Raise _ _ _ _ _ E) as (c' & msg' & -> & _). simpl. eauto 6.
Qed.

Lemma filter_complaints_Ret w path s e st d st' :
  filter_complaints w path s e st = (Ret d, st') →
  st' = note_opened st path
  ∧ ∃ records, files w path = Content records None
               ∧ for_rows s e (Csv.DictReader records) [] = Ret d.
Proof.
  destruct (files w path) as [|msg|records failure] eqn:Hf.
  - by rewrite filter_complaints_Missing.
  - by rewrite (filter_complaints_Unreadable _ _ _ _ _ msg).
  - rewrite (filter_complaints_Content _ _ _ _ _ records failure) by done.
    destruct (for_rows s e _ []) as [d0|[c msg|code]] eqn:E; [|done..].
    destruct failure; [done|]. intros [= -> <-]. eauto.
Qed.

Lemma replace_hms_Raise t h mi s e :
  Datetime.replace_hms t h mi s = Raise e → is_ValueError e.
Proof. apply new_Raise. Qed.

Lemma parse_window_Raise a e : parse_window a = Raise e → is_ValueError e.
Proof.
  unfold parse_window, datetime_strptime.
  destruct (Strptime.strptime (arg_start a) _) eqn:E1; simpl;
    [|intros [= <-]; by eapply strptime_str_Raise].
  destruct (Strptime.strptime (arg_end a) _) eqn:E2; simpl;
    [|intros [= <-]; by eapply strptime_str_Raise].
  destruct (Datetime.replace_hms _ _ _ _) eqn:E3; simpl; [done|].
  intros [= <-]. by eapply replace_hms_Raise.
Qed.

(** The shape of a run. *)
Lemma run_unfold w a :
  run w a
  = match parse_window a with
    | Ret (start_date, end_date) =>
        if Datetime.gt start_date end_date then
          (1, note_stderr no_effects
                "Error: Start date must be before or equal to end date")
        else
          match filter_complaints w (arg_input a) start_date end_date no_effects with
          | (Ret d, st) => exit_of (output_results w d (arg_output a) st)
          | (Raise ex, st) => exit_of (@Raise unit ex, st)
          end
    | Raise _ =>
        (1, note_stderr no_effects "Error: Dates must be in MM/DD/YYYY format")
    end.
Proof.
  unfold run, main, try_except, mbind, io_bind, lift.
  destruct (parse_window a) as [[s e]|ex] eqn:Ew; simpl.
  - destruct (Datetime.gt s e); [done|].
    by destruct (filter_complaints _ _ _ _ _) as [[d|ex] st].
  - apply parse_window_Raise in Ew as [msg ->]. done.
Qed.

End runs.

(** ** Facts used by the properties below *)

Lemma output_lines_eq (d : dict) :
  output_lines d = header_line :: (format_line <$> sorted d).
Proof.
  unfold output_lines.
  assert (∀ items acc,
            fold_left (λ lines item, lines ++ [format_line item]) items acc
            = acc ++ (format_line <$> items)) as Hfold.
  { intros items. induction items as [|it items IH]; intros acc; csimpl.
    - by rewrite app_nil_r.
    - by rewrite IH, <-app_assoc. }
  by rewrite Hfold.
Qed.

Lemma DictReader_perm (fieldnames : list string) (rows1 rows2 : list (list string)) :
  rows1 ≡ₚ rows2 →
  Csv.DictReader (fieldnames :: rows1) ≡ₚ Csv.DictReader (fieldnames :: rows2).
Proof.
  intros Hp. unfold Csv.DictReader. apply Permutation_map.
  induction Hp as [|x l l' _ IH|x y l|l l' l'' _ IH1 _ IH2]; simpl.
  - done.
  - destruct (Csv.nonblank x); [by constructor|done].
  - destruct (Csv.nonblank x), (Csv.nonblank y); try done. apply Permutation_swap.
  - by etrans.
Qed.

Lemma valid_time_bounds (h mi sec us : Z) :
  Datetime.valid_time h mi sec us = true →
  0 ≤ h ≤ 23 ∧ 0 ≤ mi ≤ 59 ∧ 0 ≤ sec ≤ 59 ∧ 0 ≤ us ≤ 999999.
Proof.
  unfold Datetime.valid_time. rewrite !andb_true_iff, !Z.leb_le. lia.
Qed.

Lemma replace_hms_end_of_day (t : datetime) :
  valid_datetime t → microsecond t = 0 →
  Datetime.replace_hms t 23 59 59 = Ret (end_of_day t).
Proof.
  intros [Hd _] Hus. unfold Datetime.replace_hms, Datetime.new, end_of_day.
  by rewrite Hd, Hus.
Qed.

(** A timestamp is past the end of a day exactly when it falls on a later
    day. *)
Lemma gt_end_of_day (t e : datetime) :
  valid_datetime t → microsecond t = 0 →
  Datetime.gt t (end_of_day e) = negb (not_after_day t e).
Proof.
  intros [_ Ht] Hus. apply valid_time_bounds in Ht as (Hh & Hm & Hs & _).
  unfold Datetime.gt, not_after_day, Datetime.compare, end_of_day. simpl.
  rewrite Hus.
  destruct (year t ?= year e); simpl; try done.
  destruct (month t ?= month e); simpl; try done.
  destruct (day t ?= day e); simpl; try done.
  destruct (Z.compare_spec (hour t) 23); simpl; [|done|lia].
  destruct (Z.compare_spec (minute t) 59); simpl; [|done|lia].
  destruct (Z.compare_spec (second t) 59); simpl; [done|done|lia].
Qed.

Lemma parse_window_Ret (a : args) (start_date end_date : datetime) :
  datetime_strptime (PyStr (arg_start a)) "%m/%d/%Y" = Ret start_date →
  datetime_strptime (PyStr (arg_end a)) "%m/%d/%Y" = Ret end_date →
  parse_window a = Ret (start_date, end_of_day end_date).
Proof.
  intros Hs He. unfold parse_window. rewrite Hs, He. simpl.
  apply strptime_str_valid in He as [Hv Hus].
  by rewrite replace_hms_end_of_day.
Qed.


(** A row whose three fields are strings, or are absent from the row,
    never makes the loop body raise. *)
Lemma loop_body_is_Ret (start_date end_date : datetime) (row : pyrow) :
  row !! "Created Date" ≠ Some PyNone →
  row !! "Complaint Type" ≠ Some PyNone →
  row !! "Borough" ≠ Some PyNone →
  is_Ret (loop_body start_date end_date row).
Proof.
  intros Hd Hc Hb.
  destruct (loop_body start_date end_date row) as [step|e] eqn:E; [by eexists|].
  exfalso. revert E. unfold loop_body, row_get.
  destruct (row !! "Created Date") as [[|s]|]; simpl; [done| |done].
  rewrite parse_date_str. simpl.
  destruct (Strptime.strptime s _) as [t|]; simpl; [|done].
  destruct (_ || _); [done|].
  destruct (row !! "Complaint Type") as [[|ct]|]; simpl; [done|..];
    (destruct (row !! "Borough") as [[|b]|]; simpl; [done|..]);
    first [done | by destruct (_ || _)].
Qed.

(** * The properties of the specification *)

(** C1: when the aggregation pass returns its table, the count that the
    formatter emits for a pair (complaint type, borough) is the number of
    input rows whose creation date parses and lies in the inclusive window
    and whose two fields, trimmed, are the pair's components and are not
    empty; a pair has an entry exactly when that number is positive, and
    its line is then among the output lines. *)
Theorem C1_counts_match_rows (w : env) (input_file : string)
    (start_date end_date : datetime) (st st' : effects) (d : dict) :
  filter_complaints w input_file start_date end_date st = (Ret d, st') →
  ∃ records,
    files w input_file = Content records None
    ∧ ∀ complaint_type borough,
        let n := Z.of_nat (rows_counted start_date end_date
                             (complaint_type, borough) (Csv.DictReader records)) in
        (∀ c, ((complaint_type, borough), c) ∈ sorted d ↔ c = n ∧ 0 < n)
        ∧ (0 < n →
           complaint_type +:+ ", " +:+ borough +:+ ", " +:+ pretty n
           ∈ output_lines d).
Proof.
  intros Hrun. apply filter_complaints_Ret in Hrun as (_ & records & Hf & Hfor).
  exists records. split; [done|]. intros ct b n.
  apply for_rows_spec in Hfor as [Hok Hcount]; [|apply table_ok_nil].
  specialize (Hcount (ct, b)). change (count_of [] (ct, b)) with 0 in Hcount.
  assert (∀ c, ((ct, b), c) ∈ sorted d ↔ c = n ∧ 0 < n) as Hiff.
  { intros c. rewrite sorted_perm. split.
    - intros Hin. apply dict_elem_lookup in Hin; [|apply Hok].
      rewrite table_ok_lookup_count in Hin by done.
      case_decide; [done|]. injection Hin as <-.
      subst n. split; lia.
    - intros [-> Hpos]. apply dict_lookup_Some_elem.
      rewrite table_ok_lookup_count by done.
      rewrite decide_False by (subst n; lia). f_equal. subst n. lia. }
  split; [done|]. intros Hpos.
  assert (((ct, b), n) ∈ sorted d) as Hin by (by apply Hiff).
  rewrite output_lines_eq. right.
  by apply (list_elem_of_fmap_2 format_line _ ((ct, b), n)).
Qed.

(** C1, at the sample file and the window of January 1st 2024. *)
Lemma C1_witness :
  ∃ records,
    files (sample_world sample_records) "data.csv" = Content records None
    ∧ ∀ complaint_type borough,
        let n := Z.of_nat (rows_counted jan_1 jan_1_end
                             (complaint_type, borough) (Csv.DictReader records)) in
        (∀ c, ((complaint_type, borough), c)
              ∈ sorted sample_table
              ↔ c = n ∧ 0 < n)
        ∧ (0 < n →
           complaint_type +:+ ", " +:+ borough +:+ ", " +:+ pretty n
           ∈ output_lines sample_table).
Proof.
  apply (C1_counts_match_rows (sample_world sample_records) "data.csv"
           jan_1 jan_1_end no_effects (note_opened no_effects "data.csv")).
  vm_compute. reflexivity.
Defined.

(** C2: the items of every aggregated table come out of the sort in
    strictly ascending order of the pair (complaint type, borough), one data
    line per item in that order; consequently two input files whose rows
    are permutations of each other give runs with the same exit status, the
    same text on the standard output and the same files written. *)
Theorem C2_sorted_and_order_independent (w : env) (a : args)
    (fieldnames : list string) (rows1 rows2 : list (list string))
    (failure : option string) :
  rows1 ≡ₚ rows2 →
  (∀ start_date end_date d,
     for_rows start_date end_date (Csv.DictReader (fieldnames :: rows1)) [] = Ret d →
     StronglySorted key_lt (sorted d).*1
     ∧ output_lines d = header_line :: (format_line <$> sorted d))
  ∧ (∀ k1 k2 : key,
       key_lt k1 k2
       ↔ String.ltb k1.1 k2.1 = true ∨ (k1.1 = k2.1 ∧ String.ltb k1.2 k2.2 = true))
  ∧ let file1 := Content (fieldnames :: rows1) failure in
    let file2 := Content (fieldnames :: rows2) failure in
    let r1 := run (with_file w (arg_input a) file1) a in
    let r2 := run (with_file w (arg_input a) file2) a in
    r1.1 = r2.1 ∧ stdout r1.2 = stdout r2.2 ∧ written r1.2 = written r2.2.
Proof.
  intros Hp. split_and!.
  - intros s e d Hfor.
    apply for_rows_spec in Hfor as [[Hnd _] _]; [|apply table_ok_nil].
    split; [|apply output_lines_eq].
    apply (StronglySorted_fmap fst item_lt key_lt).
    + intros x y. unfold item_lt. by rewrite !sort_key_fst.
    + by apply sorted_StronglySorted.
  - apply key_lt_lexicographic.
  - cbv zeta. rewrite !run_unfold.
    destruct (parse_window a) as [[s e]|]; [|done].
    destruct (Datetime.gt s e); [done|].
    rewrite (filter_complaints_Content _ _ _ _ _ (fieldnames :: rows1) failure)
      by apply with_file_lookup.
    rewrite (filter_complaints_Content _ _ _ _ _ (fieldnames :: rows2) failure)
      by apply with_file_lookup.
    pose proof (for_rows_perm s e _ _ (DictReader_perm fieldnames _ _ Hp)) as Hfor.
    destruct (for_rows s e (Csv.DictReader (fieldnames :: rows1)) []) as [d1|e1] eqn:E1,
             (for_rows s e (Csv.DictReader (fieldnames :: rows2)) []) as [d2|e2] eqn:E2;
      try done.
    + destruct Hfor as [[Hnd _] Hperm].
      destruct failure; [done|].
      unfold output_results, output_lines.
      by rewrite (sorted_perm_eq d1 d2).
    + destruct (for_rows_Raise _ _ _ _ _ E1) as (c1 & m1 & -> & _).
      destruct (for_rows_Raise _ _ _ _ _ E2) as (c2 & m2 & -> & _).
      done.
Qed.

(** C2, at the sample file and a shuffle of its rows. *)
Lemma C2_witness :
  (∀ start_date end_date d,
     for_rows start_date end_date (Csv.DictReader sample_records) [] = Ret d →
     StronglySorted key_lt (sorted d).*1
     ∧ output_lines d = header_line :: (format_line <$> sorted d))
  ∧ (∀ k1 k2 : key,
       key_lt k1 k2
       ↔ String.ltb k1.1 k2.1 = true ∨ (k1.1 = k2.1 ∧ String.ltb k1.2 k2.2 = true))
  ∧ let file1 := Content sample_records None in
    let file2 := Content (sample_header :: sample_shuffled) None in
    let r1 := run (with_file (sample_world []) "data.csv" file1) sample_args in
    let r2 := run (with_file (sample_world []) "data.csv" file2) sample_args in
    r1.1 = r2.1 ∧ stdout r1.2 = stdout r2.2 ∧ written r1.2 = written r2.2.
Proof.
  apply (C2_sorted_and_order_independent (sample_world []) sample_args
           sample_header (tail sample_records) sample_shuffled None).
  apply (bool_decide_unpack _). vm_compute. exact I.
Defined.

(** C3: a record with fewer fields than the header does not pass as a
    skipped row. The reader binds the missing fields to [None]; a missing
    creation date makes the parser raise [TypeError], a missing complaint
    type or borough makes [strip] raise [AttributeError], and either ends
    the run with status 1 and no output, although the row that follows
    would have been counted. A row whose three fields are strings is
    counted or skipped, whatever the strings are, and the run goes on. *)
Theorem C3_short_row_ends_run :
  run (sample_world short_row_records) sample_args
  = (1, mk_effects ""
          ("Error reading file: strptime() argument 1 must be str, not None"
           +:+ newline)
          [] ["data.csv"])
  ∧ run (sample_world short_fields_records) sample_args
    = (1, mk_effects ""
            ("Error reading file: 'NoneType' object has no attribute 'strip'"
             +:+ newline)
            [] ["data.csv"])
  ∧ run (sample_world
           [sample_header; ["8"; "01/01/2024 10:00:00 AM"; "Noise"; "BRONX"]])
        sample_args
    = (0, mk_effects
            ("complaint type, borough, count" +:+ newline
             +:+ "Noise, BRONX, 1" +:+ newline)
            "" [] ["data.csv"])
  ∧ run (sample_world sample_records) sample_args
    = (0, mk_effects
            ("complaint type, borough, count" +:+ newline
             +:+ "Noise, BRONX, 2" +:+ newline
             +:+ "Noise, BROOKLYN, 1" +:+ newline)
            "" [] ["data.csv"])
  ∧ (∀ start_date end_date created complaint_type borough (row : pyrow),
       row !! "Created Date" = Some (PyStr created) →
       row !! "Complaint Type" = Some (PyStr complaint_type) →
       row !! "Borough" = Some (PyStr borough) →
       is_Ret (loop_body start_date end_date row)).
Proof.
  split_and!; [by vm_compute..|].
  intros start_date end_date created complaint_type borough row Hd Hc Hb.
  apply loop_body_is_Ret; congruence.
Qed.

(** C4: for every end date given as MM/DD/YYYY the upper bound of the
    window is 23:59:59 of that calendar day, and the bound is inclusive: a
    parsed creation timestamp passes the upper test exactly when it falls
    on that day or an earlier one. With end date 01/31/2024 the record of
    01/31/2024 11:59:59 PM is counted and that of 02/01/2024 12:00:00 AM is
    not. *)
Theorem C4_end_of_day_inclusive :
  (∀ (a : args) (start_date e : datetime),
     datetime_strptime (PyStr (arg_start a)) "%m/%d/%Y" = Ret start_date →
     datetime_strptime (PyStr (arg_end a)) "%m/%d/%Y" = Ret e →
     parse_window a = Ret (start_date, mk_datetime (year e) (month e) (day e) 23 59 59 0)
     ∧ ∀ created t,
         parse_date (PyStr created) = Ret (Some t) →
         Datetime.gt t (mk_datetime (year e) (month e) (day e) 23 59 59 0) = false
         ↔ not_after_day t e = true)
  ∧ parse_window january_args
    = Ret (mk_datetime 2024 1 1 0 0 0 0, mk_datetime 2024 1 31 23 59 59 0)
  ∧ loop_body (mk_datetime 2024 1 1 0 0 0 0) (mk_datetime 2024 1 31 23 59 59 0)
      (Csv.make_row sample_header ["1"; "01/31/2024 11:59:59 PM"; "Noise"; "BRONX"])
    = Ret (Some ("Noise", "BRONX"))
  ∧ loop_body (mk_datetime 2024 1 1 0 0 0 0) (mk_datetime 2024 1 31 23 59 59 0)
      (Csv.make_row sample_header ["2"; "02/01/2024 12:00:00 AM"; "Noise"; "QUEENS"])
    = Ret None
  ∧ run (sample_world january_records) january_args
    = (0, mk_effects
            ("complaint type, borough, count" +:+ newline
             +:+ "Noise, BRONX, 1" +:+ newline)
            "" [] ["data.csv"]).
Proof.
  split; [|by vm_compute].
  intros a start_date e Hs He. split.
  - by apply parse_window_Ret.
  - intros created t Ht. rewrite parse_date_str in Ht.
    destruct (Strptime.strptime created _) as [t'|] eqn:E; [|done].
    injection Ht as ->. apply strptime_str_valid in E as [Hv Hus].
    change (mk_datetime _ _ _ 23 59 59 0) with (end_of_day e).
    rewrite gt_end_of_day by done. by destruct (not_after_day t e).
Qed.

(** C4, at the end date 01/31/2024. *)
Lemma C4_witness :
  parse_window january_args
  = Ret (mk_datetime 2024 1 1 0 0 0 0, mk_datetime 2024 1 31 23 59 59 0)
  ∧ ∀ created t,
      parse_date (PyStr created) = Ret (Some t) →
      Datetime.gt t (mk_datetime 2024 1 31 23 59 59 0) = false
      ↔ not_after_day t (mk_datetime 2024 1 31 0 0 0 0) = true.
Proof.
  apply (proj1 C4_end_of_day_inclusive january_args
           (mk_datetime 2024 1 1 0 0 0 0) (mk_datetime 2024 1 31 0 0 0 0)).
  - vm_compute. reflexivity.
  - vm_compute. reflexivity.
Defined.

(** C5: on every string the date parser returns a valid timestamp or
    [None] and raises nothing, and the loop skips a row whose date gives
    [None]; on the [None] that the reader puts in place of a missing
    field it raises [TypeError], which the loop does not take as a skip. *)
Theorem C5_parse_date_outcomes :
  (∀ s, (∃ t, parse_date (PyStr s) = Ret (Some t) ∧ valid_datetime t)
        ∨ parse_date (PyStr s) = Ret None)
  ∧ parse_date (PyStr "") = Ret None
  ∧ (∀ start_date end_date row s,
       row_get row "Created Date" (PyStr "") = PyStr s →
       parse_date (PyStr s) = Ret None →
       loop_body start_date end_date row = Ret None)
  ∧ parse_date PyNone
    = Raise (Exc TypeError "strptime() argument 1 must be str, not None")
  ∧ row_get (Csv.make_row sample_header ["7"]) "Created Date" (PyStr "") = PyNone
  ∧ loop_body jan_1 jan_1_end (Csv.make_row sample_header ["7"])
    = Raise (Exc TypeError "strptime() argument 1 must be str, not None").
Proof.
  split_and!; [| | |by vm_compute..].
  - intros s. rewrite parse_date_str.
    destruct (Strptime.strptime s _) as [t|] eqn:E; [left|by right].
    exists t. split; [done|]. by apply strptime_str_valid in E as [? _].
  - by vm_compute.
  - intros start_date end_date row s Hget Hnone. unfold loop_body.
    by rewrite Hget, Hnone.
Qed.

(** C6: when both dates are valid and the start is later than the end of
    the end date's day, the run ends with status 1 whatever the file system
    holds: no file has been opened, nothing is on the standard output, no
    file is written, and the error stream carries the message. *)
Theorem C6_start_after_end (w : env) (a : args) (start_date end_date : datetime) :
  datetime_strptime (PyStr (arg_start a)) "%m/%d/%Y" = Ret start_date →
  datetime_strptime (PyStr (arg_end a)) "%m/%d/%Y" = Ret end_date →
  Datetime.gt start_date (end_of_day end_date) = true →
  run w a
  = (1, mk_effects ""
          ("Error: Start date must be before or equal to end date" +:+ newline)
          [] []).
Proof.
  intros Hs He Hgt. rewrite run_unfold.
  by rewrite (parse_window_Ret a start_date end_date), Hgt.
Qed.

(** C6, for the window from February 1st back to January 31st. *)
Lemma C6_witness :
  run (sample_world sample_records) (mk_args "data.csv" "02/01/2024" "01/31/2024" None)
  = (1, mk_effects ""
          ("Error: Start date must be before or equal to end date" +:+ newline)
          [] []).
Proof.
  apply (C6_start_after_end (sample_world sample_records)
           (mk_args "data.csv" "02/01/2024" "01/31/2024" None)
           (mk_datetime 2024 2 1 0 0 0 0) (mk_datetime 2024 1 31 0 0 0 0)).
  - vm_compute. reflexivity.
  - vm_compute. reflexivity.
  - vm_compute. reflexivity.
Defined.

(** C7: for every table the first output line is the fixed header and the
    lines after it render the items of the table, one line per key, as
    complaint type, borough and count joined by comma and space; the fields
    go out verbatim, a comma inside a field included, and the count in full,
    so that different counts give different lines. The lines are printed
    joined by line ends, unless the standard output cannot take them. *)
Theorem C7_output_format (d : dict) :
  output_lines d = "complaint type, borough, count" :: (format_line <$> sorted d)
  ∧ sorted d ≡ₚ d
  ∧ (∀ complaint_type borough count,
       format_line ((complaint_type, borough), count)
       = complaint_type +:+ ", " +:+ borough +:+ ", " +:+ pretty count)
  ∧ (∀ k count1 count2,
       format_line (k, count1) = format_line (k, count2) → count1 = count2)
  ∧ (∀ w st,
       output_results w d None st
       = match stdout_error w (PyStr.join newline (output_lines d)) with
         | None =>
             (Ret (), mk_effects
                        (stdout st +:+ PyStr.join newline (output_lines d) +:+ newline)
                        (stderr st) (written st) (opened st))
         | Some msg => (Raise (Exc ValueError msg), st)
         end)
  ∧ output_lines [(("Noise, Loud", "BRONX"), 12345678901234567890)]
    = ["complaint type, borough, count";
       "Noise, Loud, BRONX, 12345678901234567890"].
Proof.
  split_and!.
  - apply output_lines_eq.
  - apply sorted_perm.
  - done.
  - intros [ct b] c1 c2. unfold format_line. intros H.
    do 4 apply (inj (String.app _)) in H.
    by apply (inj pretty) in H.
  - done.
  - by vm_compute.
Qed.

(** C8: when the input path does not name a file that can be read to its
    end, the run ends with status 1, the standard output stays empty, no
    file is written, and the error stream gets a message. *)
Theorem C8_unreadable_input (w : env) (a : args) :
  (∀ records, files w (arg_input a) ≠ Content records None) →
  (run w a).1 = 1
  ∧ stdout (run w a).2 = ""
  ∧ written (run w a).2 = []
  ∧ ∃ msg, stderr (run w a).2 = msg +:+ newline.
Proof.
  intros Hf. rewrite run_unfold.
  destruct (parse_window a) as [[s e]|]; [|by eauto 6].
  destruct (Datetime.gt s e); [by eauto 6|].
  pose proof (filter_complaints_quiet w (arg_input a) s e no_effects) as Hq.
  destruct (filter_complaints _ _ _ _ _) as [[d|ex] st] eqn:E; simpl in Hq.
  - apply filter_complaints_Ret in E as (_ & records & Hrec & _).
    by destruct (Hf records).
  - destruct Hq as (Hout & Hwr & [[? [=]]|[[= ->] [msg Herr]]]).
    simpl. rewrite Hout, Hwr. split_and!; [done..|]. by exists msg.
Qed.

(** C8, for a path that names no file. *)
Lemma C8_witness :
  (run (sample_world sample_records)
       (mk_args "nowhere.csv" "01/01/2024" "01/01/2024" (Some "out.csv"))).1 = 1
  ∧ stdout (run (sample_world sample_records)
              (mk_args "nowhere.csv" "01/01/2024" "01/01/2024" (Some "out.csv"))).2 = ""
  ∧ written (run (sample_world sample_records)
               (mk_args "nowhere.csv" "01/01/2024" "01/01/2024" (Some "out.csv"))).2 = []
  ∧ ∃ msg, stderr (run (sample_world sample_records)
                     (mk_args "nowhere.csv" "01/01/2024" "01/01/2024" (Some "out.csv"))).2
           = msg +:+ newline.
Proof.
  apply (C8_unreadable_input (sample_world sample_records)
           (mk_args "nowhere.csv" "01/01/2024" "01/01/2024" (Some "out.csv"))).
  intros records. vm_compute. discriminate.
Defined.

(** C9: after any number of rows of the aggregation pass every key in the
    table has a count of at least 1, and so it stays: the next increment
    of a key that has no entry yet creates the entry with count 1, touches
    no other key, and leaves every count at least 1. *)
Theorem C9_counts_at_least_one (start_date end_date : datetime)
    (rows : list pyrow) (n : nat) (d : dict) :
  for_rows start_date end_date (take n rows) [] = Ret d →
  (∀ k c, (k, c) ∈ d → 1 ≤ c)
  ∧ ∀ k,
      (dict_lookup d k = None → dict_lookup (increment d k) k = Some 1)
      ∧ (∀ k', k ≠ k' → dict_lookup (increment d k) k' = dict_lookup d k')
      ∧ (∀ k' c, (k', c) ∈ increment d k → 1 ≤ c).
Proof.
  intros Hfor. apply for_rows_spec in Hfor as [Hok _]; [|apply table_ok_nil].
  split.
  - intros k c Hin. apply dict_elem_lookup in Hin; [|apply Hok].
    by apply (proj2 Hok k c).
  - intros k. split_and!.
    + intros Hk. rewrite lookup_increment, decide_True by done.
      unfold count_of. by rewrite Hk.
    + intros k' Hne. by rewrite lookup_increment, decide_False.
    + intros k' c Hin. destruct (table_ok_increment d k Hok) as [Hnd Hpos].
      apply dict_elem_lookup in Hin; [|done]. by eapply Hpos.
Qed.

(** C9, after the first three rows of the sample file. *)
Lemma C9_witness :
  (∀ k c, (k, c) ∈ sample_table → 1 ≤ c)
  ∧ ∀ k,
      (dict_lookup sample_table k = None →
       dict_lookup (increment sample_table k) k
       = Some 1)
      ∧ (∀ k', k ≠ k' →
           dict_lookup (increment sample_table k) k'
           = dict_lookup sample_table k')
      ∧ (∀ k' c,
           (k', c) ∈ increment sample_table k →
           1 ≤ c).
Proof.
  apply (C9_counts_at_least_one jan_1 jan_1_end (Csv.DictReader sample_records) 3).
  vm_compute. reflexivity.
Defined.




(** * Further properties of the program *)

(** ** Facts about strings and the output *)

Lemma string_app_assoc (s1 s2 s3 : string) :
  (s1 +:+ s2) +:+ s3 = s1 +:+ (s2 +:+ s3).
Proof.
  induction s1 as [|c s1 IH]; [done|].
  change (String c ((s1 +:+ s2) +:+ s3) = String c (s1 +:+ s2 +:+ s3)).
  by rewrite IH.
Qed.


(** What [output_results] does, case by case. *)
Lemma output_results_cases (w : env) (d : dict) (output_file : option string)
    (st : effects) :
  output_results w d output_file st
  = match output_file with
    | Some path =>
        if String.eqb path "" then print_outcome w d st
        else
          match write_error w path with
          | None =>
              (Ret (), mk_effects (stdout st) (stderr st)
                         (written st ++ [(path, output_text d)]) (opened st))
          | Some msg =>
              (Raise (SystemExit 1),
               note_stderr st ("Error writing to file: " +:+ msg))
          end
    | None => print_outcome w d st
    end.
Proof.
  unfold output_results, try_except, write_file, print, print_outcome, output_text.
  destruct output_file as [path|]; [|done].
  destruct (String.eqb path ""); [done|].
  by destruct (write_error w path).
Qed.

(** What [filter_complaints] does to the effects, case by case. *)
Lemma filter_complaints_effects (w : env) (path : string)
    (s e : datetime) (st : effects) :
  let r := filter_complaints w path s e st in
  (is_Ret r.1 ∧ r.2 = note_opened st path)
  ∨ (r.1 = Raise (SystemExit 1)
     ∧ ∃ msg, r.2 = note_stderr (note_opened st path) msg).
Proof.
  destruct (files w path) as [|msg|records failure] eqn:Hf; simpl.
  - rewrite filter_complaints_Missing by done. right. eauto.
  - rewrite (filter_complaints_Unreadable _ _ _ _ _ msg) by done. right. eauto.
  - rewrite (filter_complaints_Content _ _ _ _ _ records failure) by done.
    destruct (for_rows s e _ []) as [d|ex] eqn:E.
    + destruct failure; [right; eauto|]. left. split; [by eexists|done].
    + destruct (for_rows_Raise _ _ _ _ _ E) as (c' & msg' & -> & _).
      right. eauto.
Qed.

Lemma parse_window_is_Ret (a : args) :
  is_Ret (parse_window a)
  ↔ is_Ret (datetime_strptime (PyStr (arg_start a)) "%m/%d/%Y")
    ∧ is_Ret (datetime_strptime (PyStr (arg_end a)) "%m/%d/%Y").
Proof.
  split.
  - intros [[s e] Hw]. revert Hw. unfold parse_window, datetime_strptime.
    destruct (Strptime.strptime (arg_start a) "%m/%d/%Y") as [s'|];
      simpl; [|done].
    destruct (Strptime.strptime (arg_end a) "%m/%d/%Y") as [e'|];
      simpl; [|done].
    intros _. split; by eexists.
  - intros [[s Hs] [e He]]. rewrite (parse_window_Ret a s e) by done. by eexists.
Qed.

(** ** The command-line driver *)

(** X1: when the start or the end date is not a date in the form
    MM/DD/YYYY, the run ends with status 1 and the format message on the
    error stream, whatever the file system holds: nothing is opened,
    printed or written. *)
Theorem X1_bad_date_format (w : env) (a : args) :
  ¬ is_Ret (datetime_strptime (PyStr (arg_start a)) "%m/%d/%Y")
  ∨ ¬ is_Ret (datetime_strptime (PyStr (arg_end a)) "%m/%d/%Y") →
  run w a
  = (1, mk_effects ""
          ("Error: Dates must be in MM/DD/YYYY format" +:+ newline) [] []).
Proof.
  intros Hbad. rewrite run_unfold.
  destruct (parse_window a) as [[s e]|] eqn:Hw; [|done].
  assert (is_Ret (parse_window a)) as Hret by (by eexists).
  apply parse_window_is_Ret in Hret as [? ?]. by destruct Hbad.
Qed.

(** X1, for an ISO date where MM/DD/YYYY is wanted. *)
Lemma X1_witness :
  run (sample_world sample_records)
      (mk_args "data.csv" "2024-01-01" "01/31/2024" None)
  = (1, mk_effects ""
          ("Error: Dates must be in MM/DD/YYYY format" +:+ newline) [] []).
Proof.
  apply (X1_bad_date_format (sample_world sample_records)
           (mk_args "data.csv" "2024-01-01" "01/31/2024" None)).
  left. intros [s Hs]. vm_compute in Hs. discriminate.
Defined.

(** X2: when both dates parse, the input file is opened exactly when the
    start date's calendar day is not after the end date's; in particular a
    window of a single day is accepted. *)
Theorem X2_input_opened_iff (w : env) (a : args) (start_date end_date : datetime) :
  datetime_strptime (PyStr (arg_start a)) "%m/%d/%Y" = Ret start_date →
  datetime_strptime (PyStr (arg_end a)) "%m/%d/%Y" = Ret end_date →
  opened (run w a).2
  = (if not_after_day start_date end_date then [arg_input a] else [])
  ∧ not_after_day start_date start_date = true.
Proof.
  intros Hs He. split.
  - rewrite run_unfold, (parse_window_Ret a start_date end_date) by done.
    apply strptime_str_valid in Hs as [Hv Hus].
    rewrite gt_end_of_day by done.
    destruct (not_after_day start_date end_date); simpl; [|done].
    destruct (filter_complaints_effects w (arg_input a) start_date
                (end_of_day end_date) no_effects) as [[[d Hd] Hst]|[Hr [msg Hst]]].
    + destruct (filter_complaints _ _ _ _ _) as [r st]; simpl in *. subst.
      rewrite output_results_cases. unfold print_outcome.
      destruct (arg_output a) as [path|];
        [destruct (String.eqb path ""); [|by destruct (write_error w path)]|];
        by destruct (stdout_error w _).
    + destruct (filter_complaints _ _ _ _ _) as [r st]; simpl in *. by subst.
  - unfold not_after_day. by rewrite !Z.compare_refl.
Qed.

(** X2, for the window of New Year's Day alone. *)
Lemma X2_witness :
  opened (run (sample_world sample_records) sample_args).2
  = (if not_after_day jan_1 jan_1 then [arg_input sample_args] else [])
  ∧ not_after_day jan_1 jan_1 = true.
Proof.
  apply (X2_input_opened_iff (sample_world sample_records) sample_args jan_1 jan_1).
  - vm_compute. reflexivity.
  - vm_compute. reflexivity.
Defined.


(** X4: where the standard output can take every text, a run that writes
    to a file that can be written ends with the same status and the same
    error stream as the run without the output argument, keeps the
    standard output empty, and on success writes to the file exactly the
    text the other run prints. *)
Theorem X4_file_text_is_stdout_text (w : env) (input start_str end_str path : string) :
  path ≠ "" →
  write_error w path = None →
  (∀ text, stdout_error w text = None) →
  let to_file := run w (mk_args input start_str end_str (Some path)) in
  let to_stdout := run w (mk_args input start_str end_str None) in
  to_file.1 = to_stdout.1
  ∧ stderr to_file.2 = stderr to_stdout.2
  ∧ stdout to_file.2 = ""
  ∧ written to_stdout.2 = []
  ∧ written to_file.2
    = (if to_stdout.1 =? 0 then [(path, stdout to_stdout.2)] else []).
Proof.
  intros Hne Hwr Hprint. cbv zeta. rewrite !run_unfold.
  change (parse_window (mk_args input start_str end_str (Some path)))
    with (parse_window (mk_args input start_str end_str None)).
  destruct (parse_window _) as [[s e]|]; [|done].
  destruct (Datetime.gt s e); [done|]. cbn [arg_input arg_output].
  destruct (filter_complaints_effects w input s e no_effects)
    as [[[d Hd] Hst]|[Hr [msg Hst]]].
  - destruct (filter_complaints _ _ _ _ _) as [r st]; cbn [fst snd] in *. subst.
    rewrite !output_results_cases, Hwr. unfold print_outcome.
    apply String.eqb_neq in Hne. by rewrite Hne, Hprint.
  - destruct (filter_complaints _ _ _ _ _) as [r st]; cbn [fst snd] in *. by subst.
Qed.

(** X4, for the sample file written to [out.csv]. *)
Lemma X4_witness :
  let to_file := run (sample_world sample_records)
                   (mk_args "data.csv" "01/01/2024" "01/01/2024" (Some "out.csv")) in
  let to_stdout := run (sample_world sample_records)
                     (mk_args "data.csv" "01/01/2024" "01/01/2024" None) in
  to_file.1 = to_stdout.1
  ∧ stderr to_file.2 = stderr to_stdout.2
  ∧ stdout to_file.2 = ""
  ∧ written to_stdout.2 = []
  ∧ written to_file.2
    = (if to_stdout.1 =? 0 then [("out.csv", stdout to_stdout.2)] else []).
Proof.
  apply (X4_file_text_is_stdout_text (sample_world sample_records)
           "data.csv" "01/01/2024" "01/01/2024" "out.csv").
  - discriminate.
  - vm_compute. reflexivity.
  - intros text. reflexivity.
Defined.

(** ** Facts about the aggregation pass *)

Lemma total_count_setitem (d : dict) (k : key) (v : Z) :
  total_count (dict_setitem d k v) = total_count d + v - count_of d k.
Proof.
  unfold count_of. induction d as [|[k' v'] d IH]; simpl; [lia|].
  destruct (decide (k' = k)) as [->|]; simpl; [lia|].
  rewrite IH. lia.
Qed.

Lemma total_count_increment (d : dict) (k : key) :
  total_count (increment d k) = total_count d + 1.
Proof.
  unfold increment, defaultdict_getitem.
  destruct (dict_lookup d k) as [c|] eqn:E; simpl.
  - rewrite total_count_setitem. unfold count_of. rewrite E. simpl. lia.
  - rewrite !total_count_setitem. unfold count_of.
    rewrite dict_lookup_setitem_eq, E. simpl. lia.
Qed.

Lemma table_ok_length (d : dict) :
  table_ok d → Z.of_nat (length d) ≤ total_count d.
Proof.
  intros [Hnd Hpos].
  assert (Forall (λ item, 1 ≤ item.2) d) as Hall.
  { apply Forall_forall. intros [k c] Hin. simpl.
    apply (Hpos k). by apply dict_elem_lookup. }
  clear Hnd Hpos. induction Hall as [|[k c] d Hc _ IH]; simpl in *; lia.
Qed.

(** The loop body hands a key to the increment exactly for the rows that
    pass the filter. *)
Lemma loop_body_passes (start_date end_date : datetime) (row : pyrow)
    (step : option key) :
  loop_body start_date end_date row = Ret step →
  row_passes start_date end_date row = bool_decide (is_Some step).
Proof.
  unfold loop_body, row_passes, row_get.
  destruct (row !! "Created Date") as [[|s]|]; simpl; [done| |].
  2:{ intros [= <-]. done. }
  rewrite parse_date_str. simpl.
  destruct (Strptime.strptime s _) as [t|]; simpl.
  2:{ intros [= <-]. by repeat case_match. }
  rewrite window_test.
  destruct (dt_le start_date t && dt_le t end_date); simpl.
  2:{ intros [= <-]. by repeat case_match. }
  destruct (row !! "Complaint Type") as [[|ct]|]; simpl; [done| |].
  2:{ intros Hstep.
      destruct (row !! "Borough") as [[|b]|]; simpl in Hstep; by simplify_eq. }
  destruct (row !! "Borough") as [[|b]|]; simpl; [done| |].
  2:{ rewrite orb_true_r. by intros [= <-]. }
  destruct (String.eqb (PyStr.strip ct) ""); simpl; [by intros [= <-]|].
  destruct (String.eqb (PyStr.strip b) ""); simpl; by intros [= <-].
Qed.

(** The key the loop body hands on is made of two trimmed fields, neither
    of them empty. *)
Lemma loop_body_key (start_date end_date : datetime) (row : pyrow) (k : key) :
  loop_body start_date end_date row = Ret (Some k) →
  ∃ complaint_type borough,
    k = (PyStr.strip complaint_type, PyStr.strip borough)
    ∧ k.1 ≠ "" ∧ k.2 ≠ "".
Proof.
  intros Hstep. pose proof (loop_body_counts _ _ _ _ k Hstep) as Hc.
  rewrite bool_decide_true in Hc by done. revert Hc. unfold counts_for.
  destruct (row !! "Created Date") as [[|s]|]; [done| |done].
  destruct (row !! "Complaint Type") as [[|ct]|]; [done| |done].
  destruct (row !! "Borough") as [[|b]|]; [done| |done].
  destruct (Strptime.strptime s _); [|done].
  rewrite !andb_true_iff, !negb_true_iff, !String.eqb_neq.
  intros [[[[_ H1%bool_decide_eq_true] H2%bool_decide_eq_true] ?] ?].
  exists ct, b. destruct k as [k1 k2]; simpl in *. by subst.
Qed.

Lemma for_rows_total (start_date end_date : datetime) (rows : list pyrow)
    (d d' : dict) :
  for_rows start_date end_date rows d = Ret d' →
  total_count d'
  = total_count d
    + Z.of_nat (length (List.filter (row_passes start_date end_date) rows)).
Proof.
  revert d. induction rows as [|row rows IH]; simpl; intros d.
  - intros [= <-]. lia.
  - destruct (loop_body start_date end_date row) as [step|] eqn:Estep; simpl;
      [|done].
    intros Hfor. rewrite (IH _ Hfor), (loop_body_passes _ _ _ _ Estep).
    destruct step as [k|]; simpl.
    + rewrite total_count_increment. lia.
    + lia.
Qed.

Lemma keys_increment (d : dict) (k k' : key) :
  k' ∈ (increment d k).*1 → k' = k ∨ k' ∈ d.*1.
Proof.
  intros Hin. destruct (decide (k' = k)) as [|Hne]; [by left|right].
  destruct (decide (k' ∈ d.*1)) as [|Hnot]; [done|]. exfalso.
  apply dict_lookup_None in Hnot.
  assert (dict_lookup (increment d k) k' = None) as Hn.
  { by rewrite lookup_increment, decide_False by congruence. }
  by apply dict_lookup_None in Hn.
Qed.

Lemma for_rows_keys (start_date end_date : datetime) (P : key → Prop)
    (rows : list pyrow) (d d' : dict) :
  (∀ row k, loop_body start_date end_date row = Ret (Some k) → P k) →
  for_rows start_date end_date rows d = Ret d' →
  Forall P d.*1 → Forall P d'.*1.
Proof.
  intros HP. revert d. induction rows as [|row rows IH]; simpl; intros d.
  - by intros [= <-].
  - destruct (loop_body start_date end_date row) as [step|] eqn:Estep; simpl;
      [|done].
    intros Hfor Hd. apply (IH _ Hfor).
    destruct step as [k|]; [|done].
    apply Forall_forall. intros k' [->|Hin]%keys_increment.
    + by eapply HP.
    + by eapply Forall_forall in Hd.
Qed.

Lemma for_rows_app (start_date end_date : datetime) (rows1 rows2 : list pyrow)
    (d : dict) :
  for_rows start_date end_date (rows1 ++ rows2) d
  = for_rows start_date end_date rows1 d ≫= for_rows start_date end_date rows2.
Proof.
  revert d. induction rows1 as [|row rows1 IH]; simpl; intros d; [done|].
  destruct (loop_body start_date end_date row) as [step|]; simpl; [|done].
  apply IH.
Qed.

(** ** Facts about [strip] *)

Lemma lstrip_first (s : string) (c : ascii) :
  first_char (PyStr.lstrip s) = Some c → PyStr.is_space c = false.
Proof.
  induction s as [|a s IH]; simpl; [done|].
  destruct (PyStr.is_space a) eqn:E; [done|]. simpl. by intros [= <-].
Qed.

Lemma rstrip_first (s : string) :
  first_char (PyStr.rstrip s) = None ∨ first_char (PyStr.rstrip s) = first_char s.
Proof.
  destruct s as [|a s]; simpl; [by left|].
  destruct (PyStr.rstrip s); [|by right].
  destruct (PyStr.is_space a); [by left|by right].
Qed.

Lemma rstrip_last (s : string) (c : ascii) :
  last_char (PyStr.rstrip s) = Some c → PyStr.is_space c = false.
Proof.
  induction s as [|a s IH]; simpl; [done|].
  destruct (PyStr.rstrip s) as [|b r] eqn:E.
  - destruct (PyStr.is_space a) eqn:Ea; simpl; [done|]. by intros [= <-].
  - exact IH.
Qed.

Lemma strip_trimmed (s : string) : trimmed (PyStr.strip s).
Proof.
  unfold PyStr.strip. split.
  - intros c Hc. destruct (rstrip_first (PyStr.lstrip s)) as [Hn|Heq].
    + by rewrite Hn in Hc.
    + rewrite Heq in Hc. by eapply lstrip_first.
  - apply rstrip_last.
Qed.

Lemma trimmed_strip (s : string) : trimmed s → PyStr.strip s = s.
Proof.
  intros [Hfirst Hlast]. unfold PyStr.strip.
  assert (PyStr.lstrip s = s) as ->.
  { destruct s as [|a s]; simpl; [done|]. by rewrite (Hfirst a). }
  clear Hfirst. induction s as [|a s IH]; simpl; [done|].
  destruct s as [|b s'].
  - simpl. by rewrite (Hlast a).
  - rewrite IH; [done|]. intros c Hc. by apply Hlast.
Qed.

(** ** Facts about the order of timestamps *)

Lemma fits_Z (x y z : Z) : fits (x ?= y) (y ?= z) (x ?= z).
Proof.
  unfold fits.
  destruct (Z.compare_spec x y), (Z.compare_spec y z), (Z.compare_spec x z);
    split_and!; intros; try done; lia.
Qed.

Lemma fits_lex (x1 x2 x3 i1 i2 i3 : comparison) :
  fits x1 x2 x3 → fits i1 i2 i3 →
  fits (Datetime.lex x1 i1) (Datetime.lex x2 i2) (Datetime.lex x3 i3).
Proof.
  unfold fits. intros (Ha & Hb & Hc) (Ha' & Hb' & Hc').
  destruct x1, x2, x3; simpl in *;
    split_and!; intros; try done;
    try (by apply Ha'); try (by apply Hb'); try (by apply Hc');
    try (by specialize (Ha eq_refl)); try (by specialize (Hb eq_refl));
    try (by specialize (Hc eq_refl eq_refl)).
Qed.

Lemma dt_le_trans (a b c : datetime) :
  dt_le a b = true → dt_le b c = true → dt_le a c = true.
Proof.
  assert (fits (Datetime.compare a b) (Datetime.compare b c) (Datetime.compare a c))
    as (Ha & Hb & Hc).
  { unfold Datetime.compare. repeat apply fits_lex; apply fits_Z. }
  unfold dt_le.
  destruct (Datetime.compare a b), (Datetime.compare b c); try done; intros _ _.
  - by rewrite Ha.
  - by rewrite Ha.
  - by rewrite Hb.
  - by rewrite Hc.
Qed.

(** ** Facts about the reader *)

Lemma dict_zip_no_None (fieldnames row : list string) (name : string) :
  Csv.dict_zip fieldnames row !! name ≠ Some PyNone.
Proof.
  unfold Csv.dict_zip.
  assert (∀ (l : list (string * string)) (m : pyrow),
            m !! name ≠ Some PyNone →
            fold_left (λ d kv, <[kv.1 := PyStr kv.2]> d) l m !! name ≠ Some PyNone)
    as Hfold.
  { intros l. induction l as [|[k v] l IH]; intros m Hm; simpl; [done|].
    apply IH. destruct (decide (k = name)) as [->|].
    - by rewrite lookup_insert_eq.
    - by rewrite lookup_insert_ne. }
  apply Hfold. by rewrite lookup_empty.
Qed.

(** A record with at least as many fields as the header gives a row
    without [None]. *)
Lemma make_row_no_None (fieldnames row : list string) (name : string) :
  (length fieldnames ≤ length row)%nat →
  Csv.make_row fieldnames row !! name ≠ Some PyNone.
Proof.
  intros Hlen. unfold Csv.make_row.
  destruct (_ <? _)%nat; [apply dict_zip_no_None|].
  rewrite drop_ge by done. apply dict_zip_no_None.
Qed.

Lemma filter_length_le {A} (f g : A → bool) (l : list A) :
  (∀ x, f x = true → g x = true) →
  (length (List.filter f l) ≤ length (List.filter g l))%nat.
Proof.
  intros Hfg. induction l as [|x l IH]; simpl; [done|].
  destruct (f x) eqn:Ef.
  - rewrite (Hfg x Ef). simpl. lia.
  - destruct (g x); simpl; lia.
Qed.

(** ** The aggregation pass *)

(** X5: when the pass returns its table, the counts add up to the number
    of rows that pass the filter: every such row is counted once, in one
    entry. No pair has two entries, there are no more entries than rows
    passed, and the output has one line per entry after the header. *)
Theorem X5_counts_add_up (w : env) (input_file : string)
    (start_date end_date : datetime) (st st' : effects) (d : dict) :
  filter_complaints w input_file start_date end_date st = (Ret d, st') →
  ∃ records,
    files w input_file = Content records None
    ∧ total_count d
      = Z.of_nat (length (List.filter (row_passes start_date end_date)
                            (Csv.DictReader records)))
    ∧ NoDup d.*1
    ∧ Z.of_nat (length d) ≤ total_count d
    ∧ length (output_lines d) = S (length d).
Proof.
  intros Hrun. apply filter_complaints_Ret in Hrun as (_ & records & Hf & Hfor).
  exists records. split; [done|].
  pose proof (for_rows_total _ _ _ _ _ Hfor) as Htotal.
  apply for_rows_spec in Hfor as [Hok _]; [|apply table_ok_nil].
  split_and!.
  - rewrite Htotal. simpl. lia.
  - apply Hok.
  - by apply table_ok_length.
  - rewrite output_lines_eq. simpl.
    by rewrite length_fmap, (Permutation_length (sorted_perm d)).
Qed.

(** X5, at the sample file and the window of January 1st 2024. *)
Lemma X5_witness :
  ∃ records,
    files (sample_world sample_records) "data.csv" = Content records None
    ∧ total_count sample_table
      = Z.of_nat (length (List.filter (row_passes jan_1 jan_1_end)
                            (Csv.DictReader records)))
    ∧ NoDup sample_table.*1
    ∧ Z.of_nat (length sample_table) ≤ total_count sample_table
    ∧ length (output_lines sample_table) = S (length sample_table).
Proof.
  apply (X5_counts_add_up (sample_world sample_records) "data.csv"
           jan_1 jan_1_end no_effects (note_opened no_effects "data.csv")).
  vm_compute. reflexivity.
Defined.

(** X6: every key of the table the pass returns is made of two non-empty
    strings without a blank at either end, so that trimming either one
    again changes nothing. *)
Theorem X6_keys_are_trimmed (w : env) (input_file : string)
    (start_date end_date : datetime) (st st' : effects) (d : dict) :
  filter_complaints w input_file start_date end_date st = (Ret d, st') →
  Forall (λ k : key,
            k.1 ≠ "" ∧ k.2 ≠ "" ∧ trimmed k.1 ∧ trimmed k.2
            ∧ PyStr.strip k.1 = k.1 ∧ PyStr.strip k.2 = k.2) d.*1.
Proof.
  intros Hrun. apply filter_complaints_Ret in Hrun as (_ & records & _ & Hfor).
  eapply for_rows_keys; [|exact Hfor|constructor].
  intros row k (ct & b & -> & H1 & H2)%loop_body_key. simpl in *.
  split_and!; try done; try apply strip_trimmed;
    apply trimmed_strip, strip_trimmed.
Qed.

(** X6, at the sample file, whose third record has blanks around its
    complaint type. *)
Lemma X6_witness :
  Forall (λ k : key,
            k.1 ≠ "" ∧ k.2 ≠ "" ∧ trimmed k.1 ∧ trimmed k.2
            ∧ PyStr.strip k.1 = k.1 ∧ PyStr.strip k.2 = k.2) sample_table.*1.
Proof.
  apply (X6_keys_are_trimmed (sample_world sample_records) "data.csv"
           jan_1 jan_1_end no_effects (note_opened no_effects "data.csv")).
  vm_compute. reflexivity.
Defined.

(** X7: the loop over two lists of rows, one after the other, is the loop
    over the second list resumed from the table of the first; when the
    loop returns on each list alone, it returns on both together, and each
    count is the sum of the two counts. *)
Theorem X7_rows_compose (start_date end_date : datetime)
    (rows1 rows2 : list pyrow) (d1 d2 : dict) :
  for_rows start_date end_date rows1 [] = Ret d1 →
  for_rows start_date end_date rows2 [] = Ret d2 →
  ∃ d,
    for_rows start_date end_date (rows1 ++ rows2) [] = Ret d
    ∧ for_rows start_date end_date rows2 d1 = Ret d
    ∧ ∀ k, count_of d k = count_of d1 k + count_of d2 k.
Proof.
  intros H1 H2.
  assert (is_Ret (for_rows start_date end_date rows2 d1)) as [d Hd].
  { apply for_rows_is_Ret. apply (for_rows_is_Ret _ _ rows2 []). by eexists. }
  exists d. rewrite for_rows_app, H1. split; [done|]. split; [done|].
  intros k.
  apply for_rows_spec in H1 as [Hok1 Hc1]; [|apply table_ok_nil].
  apply for_rows_spec in H2 as [_ Hc2]; [|apply table_ok_nil].
  apply for_rows_spec in Hd as [_ Hc]; [|done].
  rewrite Hc, Hc2. change (count_of [] k) with 0. lia.
Qed.

(** X7, at the sample file cut in two. *)
Lemma X7_witness :
  ∃ d,
    for_rows jan_1 jan_1_end (sample_first_rows ++ sample_later_rows) [] = Ret d
    ∧ for_rows jan_1 jan_1_end sample_later_rows
        [(("Noise", "BRONX"), 1); (("Noise", "BROOKLYN"), 1)] = Ret d
    ∧ ∀ k, count_of d k
           = count_of [(("Noise", "BRONX"), 1); (("Noise", "BROOKLYN"), 1)] k
             + count_of [(("Noise", "BRONX"), 1)] k.
Proof.
  apply (X7_rows_compose jan_1 jan_1_end sample_first_rows sample_later_rows).
  - vm_compute. reflexivity.
  - vm_compute. reflexivity.
Defined.

(** X8: a file that is read to its end without error and whose records are
    blank or have at least as many fields as the header never ends the run
    by the content of a row: with a valid window and a destination that
    takes the text (an output file that can be written, or else a standard
    output that can take every text) the run ends with status 0. *)
Theorem X8_full_records_succeed (w : env) (a : args)
    (start_date end_date : datetime)
    (fieldnames : list string) (records : list (list string)) :
  datetime_strptime (PyStr (arg_start a)) "%m/%d/%Y" = Ret start_date →
  datetime_strptime (PyStr (arg_end a)) "%m/%d/%Y" = Ret end_date →
  not_after_day start_date end_date = true →
  files w (arg_input a) = Content (fieldnames :: records) None →
  Forall (λ r, r = [] ∨ (length fieldnames ≤ length r)%nat) records →
  match destination (arg_output a) with
  | Some path => write_error w path = None
  | None => ∀ text, stdout_error w text = None
  end →
  (run w a).1 = 0 ∧ stderr (run w a).2 = "".
Proof.
  intros Hs He Hday Hf Hrec Hout.
  rewrite run_unfold, (parse_window_Ret a start_date end_date) by done.
  apply strptime_str_valid in Hs as [Hv Hus].
  rewrite gt_end_of_day, Hday by done. simpl.
  rewrite (filter_complaints_Content _ _ _ _ _ (fieldnames :: records) None) by done.
  assert (is_Ret (for_rows start_date (end_of_day end_date)
                    (Csv.DictReader (fieldnames :: records)) [])) as [d Hd].
  { apply for_rows_is_Ret. unfold Csv.DictReader.
    apply Forall_forall. intros row Hin.
    apply list_elem_of_In, in_map_iff in Hin as (r & <- & Hr).
    apply filter_In in Hr as [Hr Hnb].
    apply list_elem_of_In in Hr. eapply Forall_forall in Hrec; [|exact Hr].
    destruct Hrec as [->|Hlen]; [done|].
    apply loop_body_is_Ret; by apply make_row_no_None. }
  rewrite Hd, output_results_cases. unfold print_outcome, destination in *.
  destruct (arg_output a) as [path|]; [|by rewrite Hout].
  destruct (String.eqb path ""); by rewrite Hout.
Qed.

(** X8, at the sample file. *)
Lemma X8_witness :
  (run (sample_world sample_records) sample_args).1 = 0
  ∧ stderr (run (sample_world sample_records) sample_args).2 = "".
Proof.
  apply (X8_full_records_succeed (sample_world sample_records) sample_args
           jan_1 jan_1 sample_header (tail sample_records)).
  - vm_compute. reflexivity.
  - vm_compute. reflexivity.
  - vm_compute. reflexivity.
  - vm_compute. reflexivity.
  - apply (bool_decide_unpack _). vm_compute. exact I.
  - intros text. reflexivity.
Defined.

(** X9: widening the window never lowers a count: when the loop returns
    for a window and for a wider one, every count for the wider window is
    at least the count for the narrower. *)
Theorem X9_wider_window_counts_more (start1 end1 start2 end2 : datetime)
    (rows : list pyrow) (d1 d2 : dict) :
  dt_le start2 start1 = true →
  dt_le end1 end2 = true →
  for_rows start1 end1 rows [] = Ret d1 →
  for_rows start2 end2 rows [] = Ret d2 →
  ∀ k, count_of d1 k ≤ count_of d2 k.
Proof.
  intros Hs He H1 H2 k.
  apply for_rows_spec in H1 as [_ Hc1]; [|apply table_ok_nil].
  apply for_rows_spec in H2 as [_ Hc2]; [|apply table_ok_nil].
  rewrite Hc1, Hc2. change (count_of [] k) with 0.
  assert (rows_counted start1 end1 k rows ≤ rows_counted start2 end2 k rows)%nat;
    [|lia].
  apply filter_length_le. intros row. unfold counts_for.
  destruct (row !! "Created Date") as [[|s]|]; [done| |done].
  destruct (row !! "Complaint Type") as [[|ct]|]; [done| |done].
  destruct (row !! "Borough") as [[|b]|]; [done| |done].
  destruct (Strptime.strptime s _) as [t|]; [|done].
  rewrite !andb_true_iff.
  intros [[[[[Ht1 Ht2] ?] ?] ?] ?]. split_and!; try done.
  - by eapply dt_le_trans.
  - by eapply dt_le_trans.
Qed.

(** X9, for January 1st inside the window of January 1st and 2nd. *)
Lemma X9_witness :
  count_of sample_table ("Noise", "BRONX")
  ≤ count_of [(("Noise", "BRONX"), 3); (("Noise", "BROOKLYN"), 1)] ("Noise", "BRONX").
Proof.
  apply (X9_wider_window_counts_more jan_1 jan_1_end jan_1 jan_2_end
           (Csv.DictReader sample_records)).
  - vm_compute. reflexivity.
  - vm_compute. reflexivity.
  - vm_compute. reflexivity.
  - vm_compute. reflexivity.
Defined.

(** X10: an empty output path counts as no output path: the run is the
    run that prints to the standard output. *)
Theorem X10_empty_output_path (w : env) (input start_str end_str : string) :
  run w (mk_args input start_str end_str (Some ""))
  = run w (mk_args input start_str end_str None).
Proof.
  rewrite !run_unfold.
  change (parse_window (mk_args input start_str end_str (Some "")))
    with (parse_window (mk_args input start_str end_str None)).
  destruct (parse_window _) as [[s e]|]; [|done].
  destruct (Datetime.gt s e); [done|]. cbn [arg_input arg_output].
  destruct (filter_complaints w input s e no_effects) as [[d|ex] st]; [|done].
  by rewrite !output_results_cases.
Qed.

(** ** Facts about the matcher on timestamps written out *)

Lemma matches_to_cat (r1 r2 : Regex.regex) (s s1 s2 : string)
    (g1 g2 : list (string * string)) :
  matches_to r1 s g1 s1 → matches_to r2 s1 g2 s2 →
  matches_to (Regex.Cat r1 r2) s (g1 ++ g2) s2.
Proof.
  intros [m1 H1] [m2 H2]. exists (m1 +:+ m2).
  unfold Regex.re_match in *. simpl.
  destruct (Regex.matches r1 s) as [|f1 l1]; [done|].
  simpl in H1. injection H1 as ->. simpl.
  destruct (Regex.matches r2 s1) as [|f2 l2]; [done|].
  simpl in H2. injection H2 as ->. done.
Qed.

Lemma matches_to_cat_one (r1 r2 : Regex.regex) (s s1 s2 : string)
    (x : string * string) (g : list (string * string)) :
  matches_to r1 s [x] s1 → matches_to r2 s1 g s2 →
  matches_to (Regex.Cat r1 r2) s (x :: g) s2.
Proof. apply (matches_to_cat r1 r2 s s1 s2 [x] g). Qed.

Lemma matches_to_cat_nil (r1 r2 : Regex.regex) (s s1 s2 : string)
    (g : list (string * string)) :
  matches_to r1 s [] s1 → matches_to r2 s1 g s2 →
  matches_to (Regex.Cat r1 r2) s g s2.
Proof. apply (matches_to_cat r1 r2 s s1 s2 [] g). Qed.

Lemma matches_to_chr (c : ascii) (rest : string) :
  matches_to (Regex.Chr c) (String c rest) [] rest.
Proof.
  exists (String c ""). unfold Regex.re_match. simpl.
  by rewrite Ascii.eqb_refl.
Qed.

Lemma matches_to_blank (rest : string) :
  (∀ c, first_char rest = Some c → PyStr.is_space c = false) →
  matches_to (Regex.Plus PyStr.is_space) (String " " rest) [] rest.
Proof.
  intros Hrest. exists " ". unfold Regex.re_match. simpl.
  destruct rest as [|c rest']; [done|].
  simpl. by rewrite (Hrest c).
Qed.

Lemma matches_to_eps : matches_to Regex.Eps "" [] "".
Proof. by exists "". Qed.

Lemma two_digit_fields :
  Forall (field_ok "m" "m") (seqZ 1 12)
  ∧ Forall (field_ok "d" "d") (seqZ 1 31)
  ∧ Forall (field_ok "I" "I") (seqZ 1 12)
  ∧ Forall (field_ok "M" "M") (seqZ 0 60)
  ∧ Forall (field_ok "S" "S") (seqZ 0 60).
Proof.
  split_and!;
    match goal with
    | |- Forall _ ?l => let l' := eval vm_compute in l in change l with l'
    end;
    repeat (constructor; [intros rest; split; [by eexists|done]|]);
    constructor.
Qed.

Lemma digit_char_facts (n : Z) :
  0 ≤ n ≤ 9 →
  PyStr.is_digit (digit_char n) = true
  ∧ PyStr.is_space (digit_char n) = false
  ∧ Z.of_N (N_of_ascii (digit_char n) - 48) = n.
Proof.
  intros Hn.
  assert (Forall (λ n, PyStr.is_digit (digit_char n) = true
                       ∧ PyStr.is_space (digit_char n) = false
                       ∧ Z.of_N (N_of_ascii (digit_char n) - 48) = n)
                 (seqZ 0 10)) as Hall.
  { let l := eval vm_compute in (seqZ 0 10) in change (seqZ 0 10) with l.
    repeat (constructor; [by vm_compute|]). constructor. }
  eapply Forall_forall in Hall; [exact Hall|]. apply elem_of_seqZ. lia.
Qed.

Lemma four_chars_match (c3 c2 c1 c0 : ascii) (rest : string) :
  PyStr.is_digit c3 = true → PyStr.is_digit c2 = true →
  PyStr.is_digit c1 = true → PyStr.is_digit c0 = true →
  matches_to (re_of "Y") (String c3 (String c2 (String c1 (String c0 rest))))
    [("Y", String c3 (String c2 (String c1 (String c0 ""))))] rest.
Proof.
  intros H3 H2 H1 H0. eexists. unfold re_of, Regex.re_match. simpl.
  rewrite H3. simpl. rewrite H2. simpl. rewrite H1. simpl. rewrite H0. simpl.
  reflexivity.
Qed.

Lemma four_chars_int (c3 c2 c1 c0 : ascii) :
  PyStr.is_digit c3 = true → PyStr.is_digit c2 = true →
  PyStr.is_digit c1 = true → PyStr.is_digit c0 = true →
  PyStr.is_space c3 = false → PyStr.is_space c0 = false →
  PyStr.int (String c3 (String c2 (String c1 (String c0 ""))))
  = Ret (1000 * Z.of_N (N_of_ascii c3 - 48) + 100 * Z.of_N (N_of_ascii c2 - 48)
         + 10 * Z.of_N (N_of_ascii c1 - 48) + Z.of_N (N_of_ascii c0 - 48)).
Proof.
  intros H3 H2 H1 H0 Hs3 Hs0. unfold PyStr.int, PyStr.strip. simpl.
  rewrite Hs3. simpl. rewrite Hs0. simpl.
  rewrite H3. simpl. rewrite H2. simpl. rewrite H1. simpl. rewrite H0.
  f_equal. lia.
Qed.

Lemma year_ok (y : Z) (rest : string) :
  1 ≤ y ≤ 9999 →
  matches_to (re_of "Y") (four_digits y +:+ rest) [("Y", four_digits y)] rest
  ∧ PyStr.int (four_digits y) = Ret y.
Proof.
  intros Hy.
  assert (0 ≤ y / 1000 ≤ 9 ∧ 0 ≤ y / 100 mod 10 ≤ 9
          ∧ 0 ≤ y mod 100 / 10 ≤ 9 ∧ 0 ≤ y mod 100 mod 10 ≤ 9
          ∧ 1000 * (y / 1000) + 100 * (y / 100 mod 10)
            + 10 * (y mod 100 / 10) + y mod 100 mod 10 = y)
    as (B3 & B2 & B1 & B0 & Hsum).
  { Z.div_mod_to_equations. lia. }
  destruct (digit_char_facts _ B3) as (D3 & S3 & V3).
  destruct (digit_char_facts _ B2) as (D2 & S2 & V2).
  destruct (digit_char_facts _ B1) as (D1 & S1 & V1).
  destruct (digit_char_facts _ B0) as (D0 & S0 & V0).
  split.
  - by apply four_chars_match.
  - unfold four_digits, two_digits. rewrite four_chars_int by done.
    rewrite V3, V2, V1, V0. by rewrite Hsum.
Qed.

Lemma days_in_month_le (y m : Z) : Datetime.days_in_month y m ≤ 31.
Proof.
  unfold Datetime.days_in_month. destruct (_ && _); [lia|].
  destruct (Z.to_nat m) as [|[|[|[|[|[|[|[|[|[|[|[|[|[|n]]]]]]]]]]]]]];
    simpl; try lia; by destruct n.
Qed.

Lemma valid_datetime_bounds (t : datetime) :
  valid_datetime t →
  1 ≤ year t ≤ 9999 ∧ 1 ≤ month t ≤ 12 ∧ 1 ≤ day t ≤ 31
  ∧ 0 ≤ hour t ≤ 23 ∧ 0 ≤ minute t ≤ 59 ∧ 0 ≤ second t ≤ 59.
Proof.
  intros [Hd Ht]. apply valid_time_bounds in Ht.
  unfold Datetime.valid_date in Hd.
  rewrite !andb_true_iff, !Z.leb_le in Hd.
  pose proof (days_in_month_le (year t) (month t)). lia.
Qed.

Lemma field_ok_in (d : ascii) (name : string) (lo len n : Z) :
  Forall (field_ok d name) (seqZ lo len) → lo ≤ n < lo + len → field_ok d name n.
Proof.
  intros Hall Hn. eapply Forall_forall in Hall; [exact Hall|].
  apply elem_of_seqZ. lia.
Qed.

Lemma first_char_two_digits (n : Z) (rest : string) (c : ascii) :
  0 ≤ n ≤ 99 →
  first_char (two_digits n +:+ rest) = Some c → PyStr.is_space c = false.
Proof.
  intros Hn [= <-]. apply digit_char_facts. Z.div_mod_to_equations. lia.
Qed.

Lemma hour12_bounds (h : Z) : 0 ≤ h ≤ 23 → 1 ≤ hour12 h ≤ 12.
Proof.
  intros Hh. unfold hour12. destruct (Z.eqb_spec (h mod 12) 0); [lia|].
  Z.div_mod_to_equations. lia.
Qed.

(** The date part of both formats on a date written out, followed by
    whatever the rest of the format reads. *)
Lemma date_text_matches (t : datetime) (r : Regex.regex) (rest rest' : string)
    (g : list (string * string)) :
  valid_datetime t →
  matches_to r rest g rest' →
  matches_to
    (Regex.Cat (re_of "m") (Regex.Cat (Regex.Chr "/")
      (Regex.Cat (re_of "d") (Regex.Cat (Regex.Chr "/")
        (Regex.Cat (re_of "Y") r)))))
    (date_text t +:+ rest)
    (("m", two_digits (month t)) :: ("d", two_digits (day t))
     :: ("Y", four_digits (year t)) :: g)
    rest'.
Proof.
  intros (Hy & Hm & Hd & _)%valid_datetime_bounds Hr.
  destruct two_digit_fields as (Fm & Fd & _).
  unfold date_text. rewrite !string_app_assoc.
  eapply matches_to_cat_one; [apply (field_ok_in _ _ _ _ _ Fm); lia|].
  eapply matches_to_cat_nil; [apply matches_to_chr|].
  eapply matches_to_cat_one; [apply (field_ok_in _ _ _ _ _ Fd); lia|].
  eapply matches_to_cat_nil; [apply matches_to_chr|].
  eapply matches_to_cat_one; [by apply year_ok|done].
Qed.

(** The time part of the timestamp format on a time written out. *)
Lemma time_text_matches (t : datetime) :
  valid_datetime t →
  matches_to
    (Regex.Cat (Regex.Plus PyStr.is_space)
      (Regex.Cat (re_of "I") (Regex.Cat (Regex.Chr ":")
        (Regex.Cat (re_of "M") (Regex.Cat (Regex.Chr ":")
          (Regex.Cat (re_of "S") (Regex.Cat (Regex.Plus PyStr.is_space)
            (Regex.Cat (re_of "p") Regex.Eps))))))))
    (" " +:+ two_digits (hour12 (hour t)) +:+ ":" +:+ two_digits (minute t)
     +:+ ":" +:+ two_digits (second t) +:+ " " +:+ am_pm (hour t))
    [("I", two_digits (hour12 (hour t))); ("M", two_digits (minute t));
     ("S", two_digits (second t)); ("p", am_pm (hour t))]
    "".
Proof.
  intros (_ & _ & _ & Hh & Hmi & Hs)%valid_datetime_bounds.
  pose proof (hour12_bounds _ Hh) as Hh12.
  destruct two_digit_fields as (_ & _ & FI & FM & FS).
  eapply matches_to_cat_nil.
  { apply matches_to_blank. intros c. apply first_char_two_digits. lia. }
  eapply matches_to_cat_one; [apply (field_ok_in _ _ _ _ _ FI); lia|].
  eapply matches_to_cat_nil; [apply matches_to_chr|].
  eapply matches_to_cat_one; [apply (field_ok_in _ _ _ _ _ FM); lia|].
  eapply matches_to_cat_nil; [apply matches_to_chr|].
  eapply matches_to_cat_one; [apply (field_ok_in _ _ _ _ _ FS); lia|].
  eapply matches_to_cat_nil.
  { apply matches_to_blank. intros c. unfold am_pm.
    destruct (hour t <? 12); by intros [= <-]. }
  eapply matches_to_cat_one; [|apply matches_to_eps].
  unfold am_pm. destruct (hour t <? 12); by eexists.
Qed.

Lemma hour12_back (h : Z) :
  0 ≤ h ≤ 23 →
  (if decide (PyStr.lower (am_pm h) = "" ∨ PyStr.lower (am_pm h) = "am")
   then Ret (if hour12 h =? 12 then 0 else hour12 h)
   else if decide (PyStr.lower (am_pm h) = "pm")
        then Ret (if negb (hour12 h =? 12) then hour12 h + 12 else hour12 h)
        else Ret (hour12 h))
  = Ret h.
Proof.
  intros Hh. unfold am_pm, hour12.
  destruct (Z.ltb_spec h 12); simpl.
  - destruct (Z.eqb_spec (h mod 12) 0) as [E|E]; simpl.
    + f_equal. Z.div_mod_to_equations. lia.
    + destruct (Z.eqb_spec (h mod 12) 12); f_equal; Z.div_mod_to_equations; lia.
  - destruct (Z.eqb_spec (h mod 12) 0) as [E|E]; simpl.
    + f_equal. Z.div_mod_to_equations. lia.
    + destruct (Z.eqb_spec (h mod 12) 12); simpl; f_equal;
        Z.div_mod_to_equations; lia.
Qed.

Lemma int_fields (t : datetime) :
  valid_datetime t →
  PyStr.int (four_digits (year t)) = Ret (year t)
  ∧ PyStr.int (two_digits (month t)) = Ret (month t)
  ∧ PyStr.int (two_digits (day t)) = Ret (day t)
  ∧ PyStr.int (two_digits (hour12 (hour t))) = Ret (hour12 (hour t))
  ∧ PyStr.int (two_digits (minute t)) = Ret (minute t)
  ∧ PyStr.int (two_digits (second t)) = Ret (second t).
Proof.
  intros (Hy & Hm & Hd & Hh & Hmi & Hs)%valid_datetime_bounds.
  pose proof (hour12_bounds _ Hh) as Hh12.
  destruct two_digit_fields as (Fm & Fd & FI & FM & FS).
  split_and!.
  - by apply (year_ok _ "").
  - apply (field_ok_in _ _ _ _ _ Fm); [lia|exact ""].
  - apply (field_ok_in _ _ _ _ _ Fd); [lia|exact ""].
  - apply (field_ok_in _ _ _ _ _ FI); [lia|exact ""].
  - apply (field_ok_in _ _ _ _ _ FM); [lia|exact ""].
  - apply (field_ok_in _ _ _ _ _ FS); [lia|exact ""].
Qed.

Lemma group_get_timestamp (vm vd vY vI vM vS vp : string) :
  let g := [("m", vm); ("d", vd); ("Y", vY); ("I", vI); ("M", vM); ("S", vS);
            ("p", vp)] in
  Regex.group_get g "Y" = Some vY ∧ Regex.group_get g "m" = Some vm
  ∧ Regex.group_get g "d" = Some vd ∧ Regex.group_get g "I" = Some vI
  ∧ Regex.group_get g "M" = Some vM ∧ Regex.group_get g "S" = Some vS
  ∧ Regex.group_get g "p" = Some vp.
Proof. by vm_compute. Qed.

Lemma group_get_date (vm vd vY : string) :
  let g := [("m", vm); ("d", vd); ("Y", vY)] in
  Regex.group_get g "Y" = Some vY ∧ Regex.group_get g "m" = Some vm
  ∧ Regex.group_get g "d" = Some vd ∧ Regex.group_get g "I" = None
  ∧ Regex.group_get g "M" = None ∧ Regex.group_get g "S" = None.
Proof. by vm_compute. Qed.

(** The library reads a timestamp written out back as the timestamp. *)
Lemma strptime_timestamp_text (t : datetime) :
  valid_datetime t → microsecond t = 0 →
  Strptime.strptime (timestamp_text t) "%m/%d/%Y %I:%M:%S %p" = Ret t.
Proof.
  intros Hv Hus.
  destruct (int_fields t Hv) as (IY & Im & Id & IH & IM & IS).
  pose proof (date_text_matches t _ _ _ _ Hv (time_text_matches t Hv)) as [m Hm].
  pose proof (valid_datetime_bounds t Hv) as (_ & _ & _ & Hh & _).
  unfold Strptime.strptime.
  change (Strptime.pattern false "%m/%d/%Y %I:%M:%S %p")
    with (Some
      (Regex.Cat (re_of "m") (Regex.Cat (Regex.Chr "/")
        (Regex.Cat (re_of "d") (Regex.Cat (Regex.Chr "/")
          (Regex.Cat (re_of "Y")
            (Regex.Cat (Regex.Plus PyStr.is_space)
              (Regex.Cat (re_of "I") (Regex.Cat (Regex.Chr ":")
                (Regex.Cat (re_of "M") (Regex.Cat (Regex.Chr ":")
                  (Regex.Cat (re_of "S") (Regex.Cat (Regex.Plus PyStr.is_space)
                    (Regex.Cat (re_of "p") Regex.Eps)))))))))))))).
  assert (timestamp_text t
          = date_text t
            +:+ " " +:+ two_digits (hour12 (hour t)) +:+ ":"
            +:+ two_digits (minute t) +:+ ":" +:+ two_digits (second t)
            +:+ " " +:+ am_pm (hour t)) as ->.
  { unfold timestamp_text, date_text. by rewrite !string_app_assoc. }
  rewrite Hm. cbn [negb String.eqb].
  unfold Strptime.group_int, Strptime.hour_of.
  destruct (group_get_timestamp (two_digits (month t)) (two_digits (day t))
              (four_digits (year t)) (two_digits (hour12 (hour t)))
              (two_digits (minute t)) (two_digits (second t)) (am_pm (hour t)))
    as (GY & Gm & Gd & GI & GM & GS & Gp).
  rewrite GY, Gm, Gd, GI, GM, GS, Gp.
  rewrite IY, Im, Id, IH, IM, IS. cbn [mbind result_bind default]. unfold id.
  rewrite (hour12_back _ Hh). cbn [mbind result_bind].
  destruct Hv as [Hd Ht]. unfold Datetime.new.
  rewrite Hus in Ht. rewrite Hd, Ht. simpl.
  destruct t; simpl in *. by subst.
Qed.

(** The library reads a date written out back as midnight of the date. *)
Lemma strptime_date_text (t : datetime) :
  valid_datetime t →
  Strptime.strptime (date_text t) "%m/%d/%Y" = Ret (start_of_day t).
Proof.
  intros Hv.
  destruct (int_fields t Hv) as (IY & Im & Id & _).
  pose proof (date_text_matches t _ _ _ _ Hv matches_to_eps) as [m Hm].
  unfold Strptime.strptime.
  change (Strptime.pattern false "%m/%d/%Y")
    with (Some
      (Regex.Cat (re_of "m") (Regex.Cat (Regex.Chr "/")
        (Regex.Cat (re_of "d") (Regex.Cat (Regex.Chr "/")
          (Regex.Cat (re_of "Y") Regex.Eps)))))).
  assert (date_text t = date_text t +:+ "") as ->.
  { generalize (date_text t). intros s. induction s as [|c s IH]; [done|].
    change (String c s = String c (s +:+ "")). by rewrite <-IH. }
  rewrite Hm. cbn [negb String.eqb].
  unfold Strptime.group_int, Strptime.hour_of.
  destruct (group_get_date (two_digits (month t)) (two_digits (day t))
              (four_digits (year t))) as (GY & Gm & Gd & GI & GM & GS).
  rewrite GY, Gm, Gd, GI, GM, GS.
  rewrite IY, Im, Id. cbn [mbind result_bind].
  destruct Hv as [Hd _]. unfold Datetime.new, start_of_day. by rewrite Hd.
Qed.

(** ** The date parser and the window *)

(** X11: every valid timestamp without microseconds, written in the form
    MM/DD/YYYY hh:mm:ss AM/PM with two digits a field and four for the
    year, is parsed back to that timestamp; midnight is 12 AM and noon is
    12 PM. *)
Theorem X11_timestamp_round_trip (t : datetime) :
  valid_datetime t → microsecond t = 0 →
  parse_date (PyStr (timestamp_text t)) = Ret (Some t).
Proof.
  intros Hv Hus. by rewrite parse_date_str, strptime_timestamp_text.
Qed.

(** X11, for the last second of January 31st 2024. *)
Lemma X11_witness :
  parse_date (PyStr (timestamp_text (mk_datetime 2024 1 31 23 59 59 0)))
  = Ret (Some (mk_datetime 2024 1 31 23 59 59 0)).
Proof.
  apply (X11_timestamp_round_trip (mk_datetime 2024 1 31 23 59 59 0)).
  - split; reflexivity.
  - reflexivity.
Defined.

(** X12: for every two valid calendar dates written as MM/DD/YYYY on the
    command line, the window runs from 00:00:00 of the start date to
    23:59:59 of the end date. *)
Theorem X12_window_of_dates (a : args) (start_day end_day : datetime) :
  valid_datetime start_day → valid_datetime end_day →
  arg_start a = date_text start_day →
  arg_end a = date_text end_day →
  parse_window a = Ret (start_of_day start_day, end_of_day end_day).
Proof.
  intros Hs He Has Hae.
  rewrite (parse_window_Ret a (start_of_day start_day) (start_of_day end_day)).
  - done.
  - unfold datetime_strptime. rewrite Has. by apply strptime_date_text.
  - unfold datetime_strptime. rewrite Hae. by apply strptime_date_text.
Qed.

(** X12, for the month of January 2024. *)
Lemma X12_witness :
  parse_window january_args
  = Ret (start_of_day (mk_datetime 2024 1 1 0 0 0 0),
         end_of_day (mk_datetime 2024 1 31 0 0 0 0)).
Proof.
  apply (X12_window_of_dates january_args
           (mk_datetime 2024 1 1 0 0 0 0) (mk_datetime 2024 1 31 0 0 0 0)).
  - split; reflexivity.
  - split; reflexivity.
  - reflexivity.
  - reflexivity.
Defined.

(** X13: with a valid window, an input path that names no file ends the
    run with the message that quotes the path, and a file that cannot be
    opened for another reason ends it with the message of that failure;
    either way the status is 1, the path was tried once, and nothing is
    printed or written. *)
Theorem X13_open_failures (w : env) (a : args) (start_date end_date : datetime) :
  parse_window a = Ret (start_date, end_date) →
  Datetime.gt start_date end_date = false →
  (∀ records failure, files w (arg_input a) ≠ Content records failure) →
  run w a
  = (1, mk_effects ""
          (match files w (arg_input a) with
           | Missing => "Error: File '" +:+ arg_input a +:+ "' not found."
           | Unreadable msg => "Error reading file: " +:+ msg
           | Content _ _ => ""
           end +:+ newline)
          [] [arg_input a]).
Proof.
  intros Hw Hgt Hf. rewrite run_unfold, Hw, Hgt.
  destruct (files w (arg_input a)) as [|msg|records failure] eqn:E.
  - by rewrite filter_complaints_Missing.
  - by rewrite (filter_complaints_Unreadable _ _ _ _ _ msg).
  - by destruct (Hf records failure).
Qed.

(** X13, for a path that names no file. *)
Lemma X13_witness :
  run (sample_world sample_records)
      (mk_args "nowhere.csv" "01/01/2024" "01/01/2024" None)
  = (1, mk_effects ""
          ("Error: File '" +:+ "nowhere.csv" +:+ "' not found." +:+ newline)
          [] ["nowhere.csv"]).
Proof.
  apply (X13_open_failures (sample_world sample_records)
           (mk_args "nowhere.csv" "01/01/2024" "01/01/2024" None)
           jan_1 jan_1_end).
  - vm_compute. reflexivity.
  - vm_compute. reflexivity.
  - intros records failure. vm_compute. discriminate.
Defined.

(** X14: a row whose creation date is a string and whose complaint type
    or borough holds nothing but blanks is skipped, whatever the date and
    the window are, as long as neither field is [None]. *)
Theorem X14_blank_field_skipped (start_date end_date : datetime) (row : pyrow)
    (created complaint_type borough : string) :
  row_get row "Created Date" (PyStr "") = PyStr created →
  row_get row "Complaint Type" (PyStr "") = PyStr complaint_type →
  row_get row "Borough" (PyStr "") = PyStr borough →
  PyStr.strip complaint_type = "" ∨ PyStr.strip borough = "" →
  loop_body start_date end_date row = Ret None.
Proof.
  intros Hd Hc Hb Hblank. unfold loop_body.
  rewrite Hd, Hc, Hb, parse_date_str. simpl.
  destruct (Strptime.strptime created _) as [t|]; simpl; [|done].
  destruct (_ || _); [done|].
  destruct Hblank as [-> | ->]; [done|]. by rewrite orb_true_r.
Qed.

(** X14, for the sixth record of the sample file. *)
Lemma X14_witness :
  loop_body jan_1 jan_1_end
    (Csv.make_row sample_header ["6"; "01/01/2024 09:00:00 AM"; "  "; "QUEENS"])
  = Ret None.
Proof.
  apply (X14_blank_field_skipped jan_1 jan_1_end _
           "01/01/2024 09:00:00 AM" "  " "QUEENS").
  - vm_compute. reflexivity.
  - vm_compute. reflexivity.
  - vm_compute. reflexivity.
  - left. vm_compute. reflexivity.
Defined.
